(** * The e-commerce sales dashboard (dashboard/dashboard.py)

    The script loads a table of order line items, cleans it
    ([preprocess_data]), narrows it to the years picked in the sidebar
    ([filtered_data]) and derives the KPI row, three top-10 tables and the
    monthly trend.  This file embeds those computations as functions over
    lists of rows and proves the properties the specification states about
    them.

    Conventions of the embedding:
    - a DataFrame is a list of rows in index order; a row is a record with
      one field per column the script names (columns it never names are
      carried along untouched by pandas and are left out);
    - a missing value (NaN) of a text or numeric column is [None];
    - float64 amounts are idealised as rationals;
    - an operation that can raise returns a [result]. *)

From Stdlib Require Import List String Ascii ZArith QArith Lia Bool.
From Stdlib Require Import DecimalString Sorted Permutation.
From Stdlib Require DecimalPos DecimalZ.
Import ListNotations.

Local Open Scope string_scope.
Local Open Scope list_scope.

(** ** Exceptions and the error monad *)

Inductive exn : Type :=
| ZeroDivisionError
| ValueError
| KeyError.

Inductive result (A : Type) : Type :=
| Ok (a : A)
| Raise (e : exn).

Arguments Ok {A} a.
Arguments Raise {A} e.

Definition bind {A B : Type} (m : result A) (k : A -> result B) : result B :=
  match m with
  | Ok a => k a
  | Raise e => Raise e
  end.

Notation "x <- m ;; k" := (bind m (fun x => k))
  (at level 61, m at next level, right associativity).

Fixpoint mapM {A B : Type} (f : A -> result B) (l : list A) : result (list B) :=
  match l with
  | [] => Ok []
  | a :: l' =>
      b <- f a ;;
      bs <- mapM f l' ;;
      Ok (b :: bs)
  end.

(** ** Values *)

(** A cell of a column as [read_csv] delivers it, for the columns whose
    type the script changes.  [Int] is a cell of an int64 column (or an
    integer object); [Float] is a cell of a float64 column, held as the
    text Python prints for it, which determines the float; [Str] is text
    and [NaN] a missing cell.  A numeric column with a missing cell is
    float64: its cells are [Float] and [NaN], and 1234 is there
    [Float "1234.0"]. *)
Inductive scalar : Type :=
| NaN
| Int (z : Z)
| Float (repr : string)
| Str (s : string).

Record datetime : Type := mk_datetime {
  dt_year : Z;
  dt_month : Z;
  dt_day : Z;
  dt_hour : Z;
  dt_minute : Z;
  dt_second : Z
}.

(** A monthly period, the value of [to_period("M")]. *)
Record period : Type := mk_period {
  p_year : Z;
  p_month : Z
}.

(** A cell of a datetime-like column: a value or not-a-time. *)
Inductive timecell (A : Type) : Type :=
| Time (a : A)
| NaT.

Arguments Time {A} a.
Arguments NaT {A}.

Definition is_int (v : scalar) : bool :=
  match v with Int _ => true | _ => false end.

Definition is_float_or_missing (v : scalar) : bool :=
  match v with Float _ | NaN => true | _ => false end.

Definition is_text (v : scalar) : bool :=
  match v with Str _ => true | _ => false end.

(** Whether a column is one that [read_csv] can deliver: an int64 column
    holds integers only, a float64 column floats and missing cells, and
    any other column is an object column, which holds some text. *)
Definition loaded (col : list scalar) : bool :=
  forallb is_int col || forallb is_float_or_missing col || existsb is_text col.

(** ** String operations *)

(** [str(x)] of a cell, as [astype(str)] applies it element by element. *)
Definition astype_str (v : scalar) : string :=
  match v with
  | NaN => "nan"
  | Int z => NilZero.string_of_int (Z.to_int z)
  | Float repr => repr
  | Str s => s
  end.

Fixpoint zeros (n : nat) : string :=
  match n with
  | O => ""
  | S n' => String "0" (zeros n')
  end.

Definition is_sign (c : ascii) : bool :=
  (Ascii.eqb c "+") || (Ascii.eqb c "-").

(** [Series.str.zfill(width)] on one cell, which is Python's [str.zfill]:
    a string at least [width] long is returned as it is; a shorter one
    gets zeros on the left, after a leading sign. *)
Definition zfill (width : nat) (s : string) : string :=
  if (width <=? String.length s)%nat then s
  else
    let fill := zeros (width - String.length s) in
    match s with
    | String c rest => if is_sign c then String c (fill ++ rest) else fill ++ s
    | EmptyString => fill
    end.

(** ** Datetime parsing *)

Inductive errors_mode : Type :=
| errors_raise
| errors_coerce.

Definition to_period_M (t : datetime) : period :=
  {| p_year := dt_year t; p_month := dt_month t |}.

(** [Series.dt.to_period("M")] on one cell. *)
Definition dt_to_period (c : timecell datetime) : timecell period :=
  match c with
  | Time t => Time (to_period_M t)
  | NaT => NaT
  end.

(** [Series.dt.to_timestamp()] on one monthly period: its first instant. *)
Definition to_timestamp (p : period) : datetime :=
  {| dt_year := p_year p; dt_month := p_month p; dt_day := 1;
     dt_hour := 0; dt_minute := 0; dt_second := 0 |}.

(** ** Tables *)

(** The table as loaded from main_data.csv. *)
Module Raw.
Record row : Type := mk {
  customer_zip_code_prefix : scalar;
  customer_state : option string;
  seller_zip_code_prefix : scalar;
  order_id : option string;
  order_item_id : scalar;
  order_status : option string;
  order_purchase_timestamp : scalar;
  order_approved_at : scalar;
  order_delivered_carrier_date : scalar;
  order_delivered_customer_date : scalar;
  order_estimated_delivery_date : scalar;
  product_category_name_english : option string;
  total_revenue : option Q;
  order_purchase_year : option Z
}.
End Raw.

(** The table after [preprocess_data]. *)
Module Col.
Record row : Type := mk {
  customer_zip_code_prefix : string;
  customer_state : option string;
  seller_zip_code_prefix : string;
  order_id : option string;
  order_item_id : string;
  order_status : option string;
  order_purchase_timestamp : timecell datetime;
  order_approved_at : timecell datetime;
  order_delivered_carrier_date : timecell datetime;
  order_delivered_customer_date : timecell datetime;
  order_estimated_delivery_date : timecell datetime;
  product_category_name_english : option string;
  total_revenue : option Q;
  order_purchase_year : option Z
}.
End Col.

(** A cleaned DataFrame either has the columns of [Col.row] only, or those
    and the derived column year_month that the monthly-trend step adds. *)
Inductive frame : Type :=
| Frame (rs : list Col.row)
| FrameYM (rs : list (Col.row * timecell period)).

Definition rows (df : frame) : list Col.row :=
  match df with
  | Frame rs => rs
  | FrameYM rs => map fst rs
  end.

(** [column == text] inside [DataFrame.query]: a missing value equals
    nothing. *)
Definition eq_text (v : option string) (text : string) : bool :=
  match v with
  | Some s => String.eqb s text
  | None => false
  end.

(** The five columns named in [date_columns]. *)
Module Date.
Inductive column : Type :=
| order_purchase_timestamp
| order_approved_at
| order_delivered_carrier_date
| order_delivered_customer_date
| order_estimated_delivery_date.
End Date.

Definition date_columns : list Date.column :=
  [ Date.order_purchase_timestamp;
    Date.order_approved_at;
    Date.order_delivered_carrier_date;
    Date.order_delivered_customer_date;
    Date.order_estimated_delivery_date ].

(** The raw cell of a row in a date column. *)
Definition raw_date (column : Date.column) (r : Raw.row) : scalar :=
  match column with
  | Date.order_purchase_timestamp => Raw.order_purchase_timestamp r
  | Date.order_approved_at => Raw.order_approved_at r
  | Date.order_delivered_carrier_date => Raw.order_delivered_carrier_date r
  | Date.order_delivered_customer_date => Raw.order_delivered_customer_date r
  | Date.order_estimated_delivery_date => Raw.order_estimated_delivery_date r
  end.

Section Preprocess.

(** The conversion of one cell to a datetime that pandas applies in a
    given date column; [None] where the cell does not convert.  pandas
    settles the conversion for a column as a whole (it reads the format
    off the column's first non-missing cell), so the conversion depends on
    the column it is used in. *)
Variable parse_datetime : Date.column -> scalar -> option datetime.

(** [pd.to_datetime(df[column], errors=...)] on one cell of that column.
    A missing value stays missing in either mode. *)
Definition to_datetime (column : Date.column) (arg : scalar)
    (errors : errors_mode) : result (timecell datetime) :=
  match arg with
  | NaN => Ok NaT
  | _ =>
      match parse_datetime column arg with
      | Some t => Ok (Time t)
      | None =>
          match errors with
          | errors_raise => Raise ValueError
          | errors_coerce => Ok NaT
          end
      end
  end.

Definition fix_prefix (data : scalar) : string :=
  zfill 5 (astype_str data).

(** The column assignments of [preprocess_data], seen on one row. *)
Definition clean_row (r : Raw.row) : result Col.row :=
  let customer_zip := fix_prefix (Raw.customer_zip_code_prefix r) in
  let seller_zip := fix_prefix (Raw.seller_zip_code_prefix r) in
  let item := astype_str (Raw.order_item_id r) in
  purchase <- to_datetime Date.order_purchase_timestamp
                (Raw.order_purchase_timestamp r) errors_coerce ;;
  approved <- to_datetime Date.order_approved_at
                (Raw.order_approved_at r) errors_coerce ;;
  carrier <- to_datetime Date.order_delivered_carrier_date
               (Raw.order_delivered_carrier_date r) errors_coerce ;;
  customer <- to_datetime Date.order_delivered_customer_date
                (Raw.order_delivered_customer_date r) errors_coerce ;;
  estimated <- to_datetime Date.order_estimated_delivery_date
                 (Raw.order_estimated_delivery_date r) errors_coerce ;;
  Ok {| Col.customer_zip_code_prefix := customer_zip;
        Col.customer_state := Raw.customer_state r;
        Col.seller_zip_code_prefix := seller_zip;
        Col.order_id := Raw.order_id r;
        Col.order_item_id := item;
        Col.order_status := Raw.order_status r;
        Col.order_purchase_timestamp := purchase;
        Col.order_approved_at := approved;
        Col.order_delivered_carrier_date := carrier;
        Col.order_delivered_customer_date := customer;
        Col.order_estimated_delivery_date := estimated;
        Col.product_category_name_english := Raw.product_category_name_english r;
        Col.total_revenue := Raw.total_revenue r;
        Col.order_purchase_year := Raw.order_purchase_year r |}.

Definition preprocess_data (df : list Raw.row) : result frame :=
  cleaned <- mapM clean_row df ;;
  Ok (Frame (filter (fun r => eq_text (Col.order_status r) "delivered") cleaned)).

End Preprocess.

(** ** Series and DataFrame operations *)

Section Series.

Context {A : Type}.
Variable eqb : A -> A -> bool.
Variable leb : A -> A -> bool.

(** [Series.unique()]: the distinct values in order of first appearance. *)
Fixpoint unique (col : list A) : list A :=
  match col with
  | [] => []
  | a :: col' => a :: filter (fun b => negb (eqb a b)) (unique col')
  end.

(** [Series.isin(values)] on one cell. *)
Definition isin (v : A) (values : list A) : bool :=
  existsb (eqb v) values.

(** The non-missing cells of a column. *)
Fixpoint dropna (col : list (option A)) : list A :=
  match col with
  | [] => []
  | Some a :: col' => a :: dropna col'
  | None :: col' => dropna col'
  end.

(** [Series.nunique()]: the number of distinct non-missing values. *)
Definition nunique (col : list (option A)) : nat :=
  List.length (unique (dropna col)).

Fixpoint insert (a : A) (l : list A) : list A :=
  match l with
  | [] => [a]
  | b :: l' => if leb a b then a :: l else b :: insert a l'
  end.

(** A stable sort, ascending for [leb]. *)
Fixpoint sort (l : list A) : list A :=
  match l with
  | [] => []
  | a :: l' => insert a (sort l')
  end.

(** [DataFrame.sort_values(by=..., ascending=...)], [leb] comparing the
    rows on the [by] column.  Rows with equal keys keep their table order
    here; pandas' default sort makes no promise about them. *)
Definition sort_values (ascending : bool) (df : list A) : list A :=
  if ascending then sort df
  else rev (sort (rev df)).

End Series.

(** [Series.sum()] of a float column: missing cells are skipped and the
    empty sum is zero.  Amounts are rationals, so the rounding of float64
    addition, and with it any effect of the order of summation, is not
    represented. *)
Fixpoint sum (col : list (option Q)) : Q :=
  match col with
  | [] => 0
  | Some q :: col' => q + sum col'
  | None :: col' => sum col'
  end.

(** [Series.count()] of a text column made by [astype(str)]: such a
    column has no missing cell, so every cell counts. *)
Definition count (col : list string) : nat :=
  List.length col.

(** [DataFrame.head(n)]. *)
Definition head {A : Type} (n : nat) (df : list A) : list A :=
  firstn n df.

Definition has_key {K : Type} (eqb : K -> K -> bool) (k : K) (v : option K) : bool :=
  match v with
  | Some k' => eqb k k'
  | None => false
  end.

(** [DataFrame.groupby(key)] with its defaults [sort=True] and
    [dropna=True]: one group per distinct non-missing key, in ascending
    key order, each holding its rows in table order. *)
Definition groupby {X K : Type} (eqb leb : K -> K -> bool)
    (key : X -> option K) (df : list X) : list (K * list X) :=
  map (fun k => (k, filter (fun r => has_key eqb k (key r)) df))
      (sort leb (unique eqb (dropna (map key df)))).

(** Equality of year cells as [isin] sees it: a missing year matches a
    missing year. *)
Definition year_eqb (a b : option Z) : bool :=
  match a, b with
  | Some x, Some y => Z.eqb x y
  | None, None => true
  | _, _ => false
  end.

Definition period_eqb (p q : period) : bool :=
  Z.eqb (p_year p) (p_year q) && Z.eqb (p_month p) (p_month q).

(** Chronological order of monthly periods. *)
Definition period_leb (p q : period) : bool :=
  Z.ltb (p_year p) (p_year q)
  || (Z.eqb (p_year p) (p_year q) && Z.leb (p_month p) (p_month q)).

(** [df[mask]]: the rows where the mask holds, with all their columns. *)
Definition boolean_index (df : frame) (mask : Col.row -> bool) : frame :=
  match df with
  | Frame rs => Frame (filter mask rs)
  | FrameYM rs => FrameYM (filter (fun x => mask (fst x)) rs)
  end.

(** ** The sidebar *)

(** The multiselect widget: untouched it returns its default, afterwards
    what the user picked.  The widget's own check of its arguments (that
    every default is one of the options) is not represented here. *)
Inductive widget : Type :=
| Untouched
| Picked (selection : list (option Z)).

Definition multiselect (options default : list (option Z)) (w : widget)
  : list (option Z) :=
  match w with
  | Untouched => default
  | Picked selection => selection
  end.

Definition years (data : frame) (w : widget) : list (option Z) :=
  multiselect (unique year_eqb (map Col.order_purchase_year (rows data)))
              (unique year_eqb (map Col.order_purchase_year (rows data)))
              w.

(** ** Filter *)

Definition filtered_data (data : frame) (years : list (option Z)) : frame :=
  boolean_index data (fun r => isin year_eqb (Col.order_purchase_year r) years).

(** ** KPI row *)

Definition total_revenue (filtered_data : frame) : Q :=
  sum (map Col.total_revenue (rows filtered_data)).

Definition num_orders (filtered_data : frame) : nat :=
  nunique String.eqb (map Col.order_id (rows filtered_data)).

(** Python's [/] with an integer divisor. *)
Definition truediv (a : Q) (b : nat) : result Q :=
  match b with
  | O => Raise ZeroDivisionError
  | S _ => Ok (a / inject_Z (Z.of_nat b))
  end.

Definition average_order_value (filtered_data : frame) : result Q :=
  if (0 <? num_orders filtered_data)%nat
  then truediv (total_revenue filtered_data) (num_orders filtered_data)
  else Ok 0.

Definition units_sold (filtered_data : frame) : nat :=
  count (map Col.order_item_id (rows filtered_data)).

(** ** Top-10 tables *)

Definition by_units (a b : string * nat) : bool := (snd a <=? snd b)%nat.

Definition by_revenue (a b : string * Q) : bool := Qle_bool (snd a) (snd b).

Definition top_categories_units (filtered_data : frame) : list (string * nat) :=
  head 10
    (sort_values by_units false
       (map (fun g => (fst g, count (map Col.order_item_id (snd g))))
            (groupby String.eqb String.leb Col.product_category_name_english
                     (rows filtered_data)))).

Definition top_categories_revenue (filtered_data : frame) : list (string * Q) :=
  head 10
    (sort_values by_revenue false
       (map (fun g => (fst g, sum (map Col.total_revenue (snd g))))
            (groupby String.eqb String.leb Col.product_category_name_english
                     (rows filtered_data)))).

Definition top_states (filtered_data : frame) : list (string * Q) :=
  head 10
    (sort_values by_revenue false
       (map (fun g => (fst g, sum (map Col.total_revenue (snd g))))
            (groupby String.eqb String.leb Col.customer_state
                     (rows filtered_data)))).

(** ** Monthly trend *)

Module Trend.
Record row (K : Type) : Type := mk {
  year_month : K;
  total_revenue : Q;
  order_count : nat
}.
Arguments mk {K} _ _ _.
Arguments year_month {K} _.
Arguments total_revenue {K} _.
Arguments order_count {K} _.
End Trend.

(** [filtered_data["year_month"] =
     filtered_data["order_purchase_timestamp"].dt.to_period("M")]:
    the view gains (or has replaced) the column year_month. *)
Definition assign_year_month (filtered_data : frame) : frame :=
  FrameYM (map (fun r => (r, dt_to_period (Col.order_purchase_timestamp r)))
               (rows filtered_data)).

(** The grouping key read from the column year_month; not-a-time is a
    missing key. *)
Definition year_month_key (x : Col.row * timecell period) : option period :=
  match snd x with
  | Time p => Some p
  | NaT => None
  end.

(** [filtered_data.groupby("year_month")]: a view without that column has
    no such key. *)
Definition groupby_year_month (df : frame)
  : result (list (period * list (Col.row * timecell period))) :=
  match df with
  | Frame _ => Raise KeyError
  | FrameYM rs => Ok (groupby period_eqb period_leb year_month_key rs)
  end.

(** The aggregation of lines 142-146, keyed by monthly period. *)
Definition monthly_trend_by_period (df : frame) : result (list (Trend.row period)) :=
  groups <- groupby_year_month df ;;
  Ok (map (fun g =>
             {| Trend.year_month := fst g;
                Trend.total_revenue :=
                  sum (map (fun x => Col.total_revenue (fst x)) (snd g));
                Trend.order_count :=
                  nunique String.eqb (map (fun x => Col.order_id (fst x)) (snd g)) |})
          groups).

(** [monthly_trend] after line 149 has turned the periods into
    timestamps. *)
Definition monthly_trend (df : frame) : result (list (Trend.row datetime)) :=
  t <- monthly_trend_by_period df ;;
  Ok (map (fun r =>
             {| Trend.year_month := to_timestamp (Trend.year_month r);
                Trend.total_revenue := Trend.total_revenue r;
                Trend.order_count := Trend.order_count r |})
          t).

(** ** The render pass

    Everything after the Filter runs with the filtered view as its state:
    a step returns what it shows together with the view it leaves
    behind.  Charts and metric widgets are drawn from the values a step
    returns. *)

Definition pass (A : Type) : Type := frame -> result (A * frame).

Inductive output : Type :=
| Kpis (total_revenue : Q) (num_orders : nat) (average_order_value : Q)
       (units_sold : nat)
| UnitsTable (t : list (string * nat))
| RevenueTable (t : list (string * Q))
| TrendTable (t : list (Trend.row datetime)).

Inductive step : Type :=
| KpiRow
| TopCategoriesUnits
| TopCategoriesRevenue
| TopStates
| MonthlyTrend.

Definition run (s : step) : pass output :=
  fun filtered_data =>
    match s with
    | KpiRow =>
        aov <- average_order_value filtered_data ;;
        Ok (Kpis (total_revenue filtered_data) (num_orders filtered_data) aov
                 (units_sold filtered_data),
            filtered_data)
    | TopCategoriesUnits =>
        Ok (UnitsTable (top_categories_units filtered_data), filtered_data)
    | TopCategoriesRevenue =>
        Ok (RevenueTable (top_categories_revenue filtered_data), filtered_data)
    | TopStates =>
        Ok (RevenueTable (top_states filtered_data), filtered_data)
    | MonthlyTrend =>
        let filtered_data := assign_year_month filtered_data in
        t <- monthly_trend filtered_data ;;
        Ok (TrendTable t, filtered_data)
    end.

Fixpoint run_all (ss : list step) : pass (list output) :=
  fun filtered_data =>
    match ss with
    | [] => Ok ([], filtered_data)
    | s :: ss' =>
        r <- run s filtered_data ;;
        rs <- run_all ss' (snd r) ;;
        Ok (fst r :: fst rs, snd rs)
    end.

(** The steps in script order. *)
Definition render_steps : list step :=
  [KpiRow; TopCategoriesUnits; TopCategoriesRevenue; TopStates; MonthlyTrend].

(** One run of the script, from the loaded table and the sidebar state to
    what the page shows. *)
Definition dashboard (parse_datetime : Date.column -> scalar -> option datetime)
    (data : list Raw.row) (w : widget) : result (list output) :=
  data <- preprocess_data parse_datetime data ;;
  let years := years data w in
  let filtered_data := filtered_data data years in
  shown <- run_all render_steps filtered_data ;;
  Ok (fst shown).

(** ** Readers for two timestamp layouts

    Used to run the pipeline on concrete tables whose date cells are text
    or missing.  [Dashes] is the layout %Y-%m-%d %H:%M:%S of the dataset
    and [Slashes] the layout %Y/%m/%d %H:%M:%S. *)

Inductive layout : Type :=
| Dashes
| Slashes.

Definition date_sep (f : layout) : ascii :=
  match f with
  | Dashes => "-"%char
  | Slashes => "/"%char
  end.

Definition digit (c : ascii) : option Z :=
  let n := nat_of_ascii c in
  if ((48 <=? n) && (n <=? 57))%nat then Some (Z.of_nat (n - 48)) else None.

Fixpoint number (s : string) (acc : Z) : option Z :=
  match s with
  | EmptyString => Some acc
  | String c s' =>
      match digit c with
      | Some d => number s' (10 * acc + d)%Z
      | None => None
      end
  end.

Definition field (s : string) (start len : nat) : option Z :=
  number (substring start len s) 0%Z.

Definition sep (s : string) (pos : nat) (c : ascii) : bool :=
  match get pos s with
  | Some c' => Ascii.eqb c c'
  | None => false
  end.

Definition between (lo hi x : Z) : bool := (Z.leb lo x && Z.leb x hi).

Definition leap_year (y : Z) : bool :=
  Z.eqb (y mod 4) 0 && (negb (Z.eqb (y mod 100) 0) || Z.eqb (y mod 400) 0).

Definition days_in_month (y m : Z) : Z :=
  if Z.eqb m 2 then (if leap_year y then 29 else 28)
  else if Z.eqb m 4 || Z.eqb m 6 || Z.eqb m 9 || Z.eqb m 11 then 30
  else 31.

(** Reading a text in a given layout: the fields must be digits and make
    a date of the calendar and a time of day. *)
Definition strptime (f : layout) (s : string) : option datetime :=
  if (String.length s =? 19)%nat
     && sep s 4 (date_sep f) && sep s 7 (date_sep f) && sep s 10 " "
     && sep s 13 ":" && sep s 16 ":"
  then
    match field s 0 4, field s 5 2, field s 8 2,
          field s 11 2, field s 14 2, field s 17 2 with
    | Some y, Some m, Some d, Some h, Some mi, Some se =>
        if between 1 9999 y && between 1 12 m
           && between 1 (days_in_month y m) d && between 0 23 h
           && between 0 59 mi && between 0 59 se
        then Some (mk_datetime y m d h mi se)
        else None
    | _, _, _, _, _, _ => None
    end
  else None.

(** The reader of the dataset's own layout, the same in every column. *)
Definition parse_layout (column : Date.column) (v : scalar) : option datetime :=
  match v with
  | Str s => strptime Dashes s
  | _ => None
  end.

(** The layout a text is written in, if it is one of the two. *)
Definition guess_datetime_format (s : string) : option layout :=
  match strptime Dashes s with
  | Some _ => Some Dashes
  | None =>
      match strptime Slashes s with
      | Some _ => Some Slashes
      | None => None
      end
  end.

(** The first non-missing text of a column. *)
Fixpoint first_text (col : list scalar) : option string :=
  match col with
  | [] => None
  | Str s :: _ => Some s
  | _ :: col' => first_text col'
  end.

(** The conversion pandas settles on for a column of text and missing
    cells: the layout is guessed from the first non-missing cell and every
    cell is read in that layout; when no layout can be guessed from that
    cell, each cell is read on its own. *)
Definition column_reader (col : list scalar) (v : scalar) : option datetime :=
  match v with
  | Str s =>
      match first_text col with
      | Some s0 =>
          match guess_datetime_format s0 with
          | Some f => strptime f s
          | None =>
              match guess_datetime_format s with
              | Some f => strptime f s
              | None => None
              end
          end
      | None => None
      end
  | _ => None
  end.

(** The conversions of the five date columns of a loaded table. *)
Definition inferred (df : list Raw.row) (column : Date.column)
  : scalar -> option datetime :=
  column_reader (map (raw_date column) df).

(** ** Sample tables *)

Definition line (zip : scalar) (state order : string) (status : string)
    (purchase : scalar) (category : string) (revenue : Q) (year : Z) : Raw.row :=
  {| Raw.customer_zip_code_prefix := zip;
     Raw.customer_state := Some state;
     Raw.seller_zip_code_prefix := Int 4001;
     Raw.order_id := Some order;
     Raw.order_item_id := Int 1;
     Raw.order_status := Some status;
     Raw.order_purchase_timestamp := purchase;
     Raw.order_approved_at := purchase;
     Raw.order_delivered_carrier_date := purchase;
     Raw.order_delivered_customer_date := purchase;
     Raw.order_estimated_delivery_date := NaN;
     Raw.product_category_name_english := Some category;
     Raw.total_revenue := Some revenue;
     Raw.order_purchase_year := Some year |}.

Definition sample_orders : list Raw.row :=
  [ line (Int 1234) "SP" "o1" "delivered" (Str "2017-03-05 10:15:00") "toys" 100 2017;
    line (Int 123456) "RJ" "o2" "delivered" (Str "not a date") "toys" 50 2018;
    line (Int 987) "SP" "o3" "shipped" (Str "2018-01-20 08:00:00") "garden" 70 2018;
    line (Int 22041) "MG" "o4" "delivered" (Str "2018-01-02 23:59:59") "garden" 30 2018 ].

(** A delivered order whose timestamps are written with slashes. *)
Definition slash_order : Raw.row :=
  line (Int 22041) "MG" "o4" "delivered" (Str "2018/01/02 23:59:59") "garden" 30 2018.

(** Two delivered orders whose timestamps are written in different
    layouts, the one with dashes first. *)
Definition mixed_layout_orders : list Raw.row :=
  [ line (Int 1234) "SP" "o1" "delivered" (Str "2017-03-05 10:15:00") "toys" 100 2017;
    slash_order ].

(** A zip prefix read from a float64 column. *)
Definition float_zip_order : Raw.row :=
  line (Float "1234.0") "SP" "o1" "delivered" (Str "2017-03-05 10:15:00") "toys" 100 2017.

(** The cleaned sample table and views of it. *)
Definition sample_data : frame :=
  match preprocess_data parse_layout sample_orders with
  | Ok df => df
  | Raise _ => Frame []
  end.

(** The view of the cleaned sample table under the default selection. *)
Definition sample_view : frame :=
  filtered_data sample_data (years sample_data Untouched).

(** The first row of the cleaned sample table. *)
Definition sample_line : Col.row :=
  let t := Time (mk_datetime 2017 3 5 10 15 0) in
  {| Col.customer_zip_code_prefix := "01234";
     Col.customer_state := Some "SP";
     Col.seller_zip_code_prefix := "04001";
     Col.order_id := Some "o1";
     Col.order_item_id := "1";
     Col.order_status := Some "delivered";
     Col.order_purchase_timestamp := t;
     Col.order_approved_at := t;
     Col.order_delivered_carrier_date := t;
     Col.order_delivered_customer_date := t;
     Col.order_estimated_delivery_date := NaT;
     Col.product_category_name_english := Some "toys";
     Col.total_revenue := Some 100;
     Col.order_purchase_year := Some 2017%Z |}.

(** ** Vocabulary of the statements *)

(** The cell of a cleaned row in a date column. *)
Definition clean_date (column : Date.column) (r : Col.row) : timecell datetime :=
  match column with
  | Date.order_purchase_timestamp => Col.order_purchase_timestamp r
  | Date.order_approved_at => Col.order_approved_at r
  | Date.order_delivered_carrier_date => Col.order_delivered_carrier_date r
  | Date.order_delivered_customer_date => Col.order_delivered_customer_date r
  | Date.order_estimated_delivery_date => Col.order_estimated_delivery_date r
  end.

(** A cleaned date cell [c] against the raw cell [v], under the conversion
    of its column: a missing cell and a cell that does not convert are
    not-a-time, a cell that converts is that datetime. *)
Definition coerced (convert : scalar -> option datetime)
    (v : scalar) (c : timecell datetime) : Prop :=
  (v = NaN -> c = NaT)
  /\ (forall t, v <> NaN -> convert v = Some t -> c = Time t)
  /\ (v <> NaN -> convert v = None -> c = NaT).

(** Every column of [date_columns] of a cleaned row against the raw row,
    each under the conversion of that column. *)
Definition dates_coerced (parse_datetime : Date.column -> scalar -> option datetime)
    (raw : Raw.row) (r : Col.row) : Prop :=
  Forall (fun column =>
            coerced (parse_datetime column) (raw_date column raw)
                    (clean_date column r))
         date_columns.

(** [s] is [text] with [n] zeros put on its left; when [text] begins with
    a sign, the sign stays in front and the zeros follow it. *)
Definition zero_padded (n : nat) (text s : string) : Prop :=
  exists sign body,
    text = (sign ++ body)%string
    /\ s = (sign ++ zeros n ++ body)%string
    /\ (sign = "+" \/ sign = "-"
        \/ (sign = ""
            /\ forall c rest, body = String c rest ->
                              c <> "+"%char /\ c <> "-"%char)).

(** A cleaned zip prefix [s] against the raw cell [v]. *)
Definition prefix_fixed (v : scalar) (s : string) : Prop :=
  let text := astype_str v in
  String.length s = Nat.max 5 (String.length text)
  /\ ((String.length text <= 5)%nat ->
      String.length s = 5%nat /\ zero_padded (5 - String.length text) text s)
  /\ ((5 < String.length text)%nat -> s = text).

Definition period_lt (p q : period) : Prop :=
  (p_year p < p_year q)%Z \/ (p_year p = p_year q /\ (p_month p < p_month q)%Z).

(** The instants as a list of fields, most significant first. *)
Definition fields (t : datetime) : list Z :=
  [dt_year t; dt_month t; dt_day t; dt_hour t; dt_minute t; dt_second t].

Fixpoint lex_lt (a b : list Z) : Prop :=
  match a, b with
  | x :: a', y :: b' => (x < y)%Z \/ (x = y /\ lex_lt a' b')
  | _, _ => False
  end.

(** Chronological order of timestamps. *)
Definition datetime_lt (s t : datetime) : Prop :=
  lex_lt (fields s) (fields t).

(** Whether the purchase timestamp of a row was parsed. *)
Definition has_time (r : Col.row) : bool :=
  match Col.order_purchase_timestamp r with
  | Time _ => true
  | NaT => false
  end.

(** Whether a row was bought in month [m] of year [y], by the fields of
    its purchase timestamp. *)
Definition bought_in (y m : Z) (r : Col.row) : bool :=
  match Col.order_purchase_timestamp r with
  | Time t => Z.eqb (dt_year t) y && Z.eqb (dt_month t) m
  | NaT => false
  end.

(** A row with its purchase timestamp taken away. *)
Definition drop_time (r : Col.row) : Col.row :=
  {| Col.customer_zip_code_prefix := Col.customer_zip_code_prefix r;
     Col.customer_state := Col.customer_state r;
     Col.seller_zip_code_prefix := Col.seller_zip_code_prefix r;
     Col.order_id := Col.order_id r;
     Col.order_item_id := Col.order_item_id r;
     Col.order_status := Col.order_status r;
     Col.order_purchase_timestamp := NaT;
     Col.order_approved_at := Col.order_approved_at r;
     Col.order_delivered_carrier_date := Col.order_delivered_carrier_date r;
     Col.order_delivered_customer_date := Col.order_delivered_customer_date r;
     Col.order_estimated_delivery_date := Col.order_estimated_delivery_date r;
     Col.product_category_name_english := Col.product_category_name_english r;
     Col.total_revenue := Col.total_revenue r;
     Col.order_purchase_year := Col.order_purchase_year r |}.

(** The view with the same rows and no purchase timestamp on any. *)
Definition without_times (fd : frame) : frame :=
  Frame (map drop_time (rows fd)).

(** Whether a row was bought in the month [p]. *)
Definition in_month (p : period) (r : Col.row) : bool :=
  match Col.order_purchase_timestamp r with
  | Time t => period_eqb p (to_period_M t)
  | NaT => false
  end.

(** The month of a row as a grouping key. *)
Definition month_of (r : Col.row) : option period :=
  year_month_key (r, dt_to_period (Col.order_purchase_timestamp r)).

(** The months present in a view, in ascending order. *)
Definition months (fd : frame) : list period :=
  sort period_leb (unique period_eqb (dropna (map month_of (rows fd)))).

(** The trend row of one month, computed from the rows of that month. *)
Definition month_row (fd : frame) (p : period) : Trend.row datetime :=
  {| Trend.year_month := to_timestamp p;
     Trend.total_revenue :=
       sum (map Col.total_revenue (filter (in_month p) (rows fd)));
     Trend.order_count :=
       nunique String.eqb (map Col.order_id (filter (in_month p) (rows fd))) |}.

(** Column sums over a monthly trend table. *)
Definition trend_revenue {K : Type} (t : list (Trend.row K)) : Q :=
  sum (map (fun r => Some (Trend.total_revenue r)) t).

Definition trend_orders {K : Type} (t : list (Trend.row K)) : nat :=
  fold_right Nat.add 0%nat (map Trend.order_count t).

(** A view of one line item whose order id is missing. *)
Definition unidentified_view : frame :=
  Frame [ {| Col.customer_zip_code_prefix := "01234";
             Col.customer_state := Some "SP";
             Col.seller_zip_code_prefix := "04001";
             Col.order_id := None;
             Col.order_item_id := "1";
             Col.order_status := Some "delivered";
             Col.order_purchase_timestamp := NaT;
             Col.order_approved_at := NaT;
             Col.order_delivered_carrier_date := NaT;
             Col.order_delivered_customer_date := NaT;
             Col.order_estimated_delivery_date := NaT;
             Col.product_category_name_english := Some "toys";
             Col.total_revenue := Some 40;
             Col.order_purchase_year := Some 2017%Z |} ].

(** ** Metric texts *)

(** The digits of a number, least significant first, with a comma after
    every third digit that has a digit after it. *)
Fixpoint group3 (l : list ascii) : list ascii :=
  match l with
  | a :: b :: c :: ((_ :: _) as rest) => a :: b :: c :: ","%char :: group3 rest
  | _ => l
  end.

(** The text of a count in the metric widgets, [f"{n:,}"]: its decimal
    digits with a comma between groups of three, counted from the right. *)
Definition format_thousands (n : nat) : string :=
  string_of_list_ascii
    (rev (group3 (rev (list_ascii_of_string (astype_str (Int (Z.of_nat n))))))).

Definition strip_commas (s : string) : string :=
  string_of_list_ascii
    (filter (fun c => negb (Ascii.eqb c ","%char)) (list_ascii_of_string s)).

(** ** Vocabulary of the coverage statements *)

(** The rows of a view whose key column holds [k]. *)
Definition group_of (key : Col.row -> option string) (k : string) (fd : frame)
  : list Col.row :=
  filter (fun r => has_key String.eqb k (key r)) (rows fd).

(** The common shape of the three top-10 tables: group by a text column,
    aggregate each group, sort descending on the aggregate, keep 10. *)
Definition top10 {M : Type} (key : Col.row -> option string)
    (agg : list Col.row -> M) (leb : string * M -> string * M -> bool)
    (fd : frame) : list (string * M) :=
  head 10
    (sort_values leb false
       (map (fun g => (fst g, agg (snd g)))
            (groupby String.eqb String.leb key (rows fd)))).

(** The sum of a column of counts. *)
Definition total (col : list nat) : nat := fold_right Nat.add 0%nat col.

(** Reading a decimal text back as an integer. *)
Definition int_of_text (s : string) : option Z :=
  option_map Z.of_int (NilZero.int_of_string s).

(** * Proofs *)

(** ** The error monad *)

Lemma mapM_Forall2 {A B : Type} (f : A -> result B) (l : list A) :
  forall bs, mapM f l = Ok bs -> Forall2 (fun a b => f a = Ok b) l bs.
Proof.
  induction l as [|a l IH]; simpl; intros bs H.
  - inversion H. constructor.
  - destruct (f a) as [b|e] eqn:Hf; simpl in H; [|discriminate].
    destruct (mapM f l) as [bs'|e] eqn:Hl; simpl in H; [|discriminate].
    inversion H; subst. constructor; auto.
Qed.

Lemma mapM_total {A B : Type} (f : A -> result B) (l : list A) :
  (forall a, exists b, f a = Ok b) -> exists bs, mapM f l = Ok bs.
Proof.
  intros Hf. induction l as [|a l [bs IH]]; simpl.
  - now exists [].
  - destruct (Hf a) as [b Hb]. rewrite Hb, IH. simpl. now exists (b :: bs).
Qed.

Lemma Forall2_filter {A B : Type} (R : A -> B -> Prop)
    (p : A -> bool) (q : B -> bool) (l : list A) (l' : list B) :
  (forall a b, R a b -> p a = q b) ->
  Forall2 R l l' -> Forall2 R (filter p l) (filter q l').
Proof.
  intros Hpq H. induction H as [|a b l l' Hab H IH]; simpl.
  - constructor.
  - rewrite (Hpq a b Hab). destruct (q b); auto.
Qed.

Lemma Forall2_In_r {A B : Type} (R : A -> B -> Prop) (l : list A) (l' : list B) :
  Forall2 R l l' -> forall b, In b l' -> exists a, In a l /\ R a b.
Proof.
  induction 1 as [|a b l l' Hab H IH]; simpl; intros x Hx.
  - contradiction.
  - destruct Hx as [<-|Hx].
    + exists a. auto.
    + destruct (IH x Hx) as [a' [Ha' HR]]. exists a'. auto.
Qed.

(** ** Preprocessing *)

Section PreprocessFacts.

Variable parse_datetime : Date.column -> scalar -> option datetime.

Lemma to_datetime_coerce (column : Date.column) (v : scalar) :
  exists c, to_datetime parse_datetime column v errors_coerce = Ok c
            /\ coerced (parse_datetime column) v c.
Proof.
  unfold to_datetime, coerced.
  destruct v; try (destruct (parse_datetime column _) eqn:E);
    eexists; (split; [reflexivity|]);
    repeat split; try congruence.
Qed.

Lemma clean_row_columns (raw : Raw.row) :
  exists r,
    clean_row parse_datetime raw = Ok r
    /\ Col.customer_zip_code_prefix r = fix_prefix (Raw.customer_zip_code_prefix raw)
    /\ Col.seller_zip_code_prefix r = fix_prefix (Raw.seller_zip_code_prefix raw)
    /\ Col.order_status r = Raw.order_status raw
    /\ dates_coerced parse_datetime raw r.
Proof.
  unfold clean_row, dates_coerced, date_columns.
  destruct (to_datetime_coerce Date.order_purchase_timestamp
              (Raw.order_purchase_timestamp raw)) as [c1 [-> H1]].
  destruct (to_datetime_coerce Date.order_approved_at
              (Raw.order_approved_at raw)) as [c2 [-> H2]].
  destruct (to_datetime_coerce Date.order_delivered_carrier_date
              (Raw.order_delivered_carrier_date raw)) as [c3 [-> H3]].
  destruct (to_datetime_coerce Date.order_delivered_customer_date
              (Raw.order_delivered_customer_date raw)) as [c4 [-> H4]].
  destruct (to_datetime_coerce Date.order_estimated_delivery_date
              (Raw.order_estimated_delivery_date raw)) as [c5 [-> H5]].
  simpl. eexists. split; [reflexivity|]. simpl.
  split; [reflexivity|]. split; [reflexivity|]. split; [reflexivity|].
  repeat (apply Forall_cons; [assumption|]). apply Forall_nil.
Qed.

Lemma clean_row_total (raw : Raw.row) :
  exists r, clean_row parse_datetime raw = Ok r.
Proof.
  destruct (clean_row_columns raw) as [r [H _]]. eauto.
Qed.

Lemma clean_row_status (raw : Raw.row) (r : Col.row) :
  clean_row parse_datetime raw = Ok r ->
  eq_text (Raw.order_status raw) "delivered"
  = eq_text (Col.order_status r) "delivered".
Proof.
  intros H. destruct (clean_row_columns raw) as [r' [H' [_ [_ [Hs _]]]]].
  rewrite H in H'. inversion H'; subst. now rewrite Hs.
Qed.

Lemma preprocess_data_rows (df : list Raw.row) :
  exists kept,
    preprocess_data parse_datetime df = Ok (Frame kept)
    /\ Forall2 (fun raw r => clean_row parse_datetime raw = Ok r)
               (filter (fun raw => eq_text (Raw.order_status raw) "delivered") df)
               kept.
Proof.
  unfold preprocess_data.
  destruct (mapM_total (clean_row parse_datetime) df clean_row_total) as [cleaned Hc].
  rewrite Hc. simpl. eexists. split; [reflexivity|].
  apply Forall2_filter.
  - intros a b Hab. now apply clean_row_status.
  - now apply mapM_Forall2.
Qed.

Lemma eq_text_true (v : option string) (text : string) :
  eq_text v text = true <-> v = Some text.
Proof.
  destruct v as [s|]; simpl.
  - rewrite String.eqb_eq. split; congruence.
  - split; discriminate.
Qed.

(** C1: preprocessing returns a table whose rows all have order_status
    "delivered", and these rows are, one for one and in order, the cleaned
    forms of the input rows with that status: every other row is dropped
    and no delivered row is lost. *)
Theorem preprocess_data_keeps_delivered (df : list Raw.row) :
  exists kept,
    preprocess_data parse_datetime df = Ok (Frame kept)
    /\ Forall (fun r => Col.order_status r = Some "delivered") kept
    /\ Forall2 (fun raw r => clean_row parse_datetime raw = Ok r)
               (filter (fun raw => eq_text (Raw.order_status raw) "delivered") df)
               kept
    /\ List.length kept
       = List.length
           (filter (fun raw => eq_text (Raw.order_status raw) "delivered") df).
Proof.
  destruct (preprocess_data_rows df) as [kept [Hk H2]].
  exists kept. repeat split; auto.
  - unfold preprocess_data in Hk.
    destruct (mapM (clean_row parse_datetime) df) as [cleaned|]; simpl in Hk;
      [|discriminate].
    inversion Hk; subst. apply Forall_forall. intros r Hr.
    apply filter_In in Hr. now apply eq_text_true.
  - symmetry. eapply Forall2_length; eauto.
Qed.

Lemma Forall2_and {A B : Type} (R S : A -> B -> Prop) (l : list A) (l' : list B) :
  Forall2 R l l' -> (forall a b, R a b -> S a b) -> Forall2 S l l'.
Proof.
  induction 1; constructor; auto.
Qed.

(** C8 (amended): preprocessing converts each of the five date columns
    cell by cell, with the conversion that belongs to that column.  The
    kept rows are the delivered input rows in order, and in each of them
    every date cell is not-a-time where the raw cell is missing or does
    not convert in its column, and the converted datetime where it
    does. *)
Theorem preprocess_data_converts_dates (df : list Raw.row) :
  exists kept,
    preprocess_data parse_datetime df = Ok (Frame kept)
    /\ Forall2 (dates_coerced parse_datetime)
               (filter (fun raw => eq_text (Raw.order_status raw) "delivered") df)
               kept.
Proof.
  destruct (preprocess_data_rows df) as [kept [Hk H2]].
  exists kept. split; [assumption|].
  eapply Forall2_and; [exact H2|]. intros raw r Hc.
  destruct (clean_row_columns raw) as [r' [Hr' [_ [_ [_ Hd]]]]].
  rewrite Hc in Hr'. inversion Hr'; subst. exact Hd.
Qed.

(** ** Zero padding *)

Lemma length_append (s t : string) :
  String.length (s ++ t) = (String.length s + String.length t)%nat.
Proof.
  induction s as [|c s IH]; simpl; auto.
Qed.

Lemma zeros_length (n : nat) : String.length (zeros n) = n.
Proof.
  induction n; simpl; auto.
Qed.

Lemma is_sign_inv (c : ascii) :
  is_sign c = true -> String c "" = "+" \/ String c "" = "-".
Proof.
  unfold is_sign. rewrite orb_true_iff, !Ascii.eqb_eq.
  intros [->| ->]; auto.
Qed.

Lemma zfill_length (width : nat) (s : string) :
  String.length (zfill width s) = Nat.max width (String.length s).
Proof.
  unfold zfill. destruct (Nat.leb_spec width (String.length s)) as [H|H].
  - lia.
  - destruct s as [|c rest].
    + rewrite zeros_length. simpl. lia.
    + destruct (is_sign c); simpl in *;
        rewrite length_append, zeros_length; simpl; lia.
Qed.

Lemma zfill_long (width : nat) (s : string) :
  (width <= String.length s)%nat -> zfill width s = s.
Proof.
  intros H. unfold zfill.
  destruct (Nat.leb_spec width (String.length s)); [reflexivity|lia].
Qed.

Lemma is_sign_false (c : ascii) :
  is_sign c = false -> c <> "+"%char /\ c <> "-"%char.
Proof.
  unfold is_sign. rewrite orb_false_iff, !Ascii.eqb_neq. auto.
Qed.

Lemma append_empty (s : string) : (s ++ "")%string = s.
Proof.
  induction s as [|c s IH]; simpl; congruence.
Qed.

Lemma zfill_padded (width : nat) (s : string) :
  (String.length s <= width)%nat ->
  zero_padded (width - String.length s) s (zfill width s).
Proof.
  intros H. unfold zfill, zero_padded.
  destruct (Nat.leb_spec width (String.length s)) as [H'|H'].
  - replace (width - String.length s)%nat with 0%nat by lia.
    destruct s as [|c rest].
    + exists "", "". simpl. repeat split; auto.
      right. right. split; [reflexivity|]. discriminate.
    + destruct (is_sign c) eqn:Hc.
      * exists (String c ""), rest. simpl. repeat split; auto.
        destruct (is_sign_inv c Hc); auto.
      * exists "", (String c rest). simpl. repeat split; auto.
        right. right. split; [reflexivity|].
        intros c' rest' E. inversion E; subst. now apply is_sign_false.
  - destruct s as [|c rest].
    + exists "", "". simpl. split; auto. split.
      * rewrite Nat.sub_0_r. symmetry. apply append_empty.
      * right. right. split; [reflexivity|]. discriminate.
    + destruct (is_sign c) eqn:Hc.
      * exists (String c ""), rest. simpl.
        split; auto. split; auto.
        destruct (is_sign_inv c Hc); auto.
      * exists "", (String c rest). simpl. split; auto. split; auto.
        right. right. split; [reflexivity|].
        intros c' rest' E. inversion E; subst. now apply is_sign_false.
Qed.

Lemma fix_prefix_fixed (v : scalar) : prefix_fixed v (fix_prefix v).
Proof.
  unfold prefix_fixed, fix_prefix. split; [apply zfill_length|]. split.
  - intros H. split.
    + rewrite zfill_length. lia.
    + now apply zfill_padded.
  - intros H. apply zfill_long. lia.
Qed.

(** C3 (amended): in a table whose zip-prefix columns are columns that
    [read_csv] can deliver, a cleaned zip prefix is the text of the raw
    cell passed through a pad to width 5.  Where that text has at most 5
    characters the cleaned value has exactly 5: the text with zeros on its
    left, a leading sign staying in front of the zeros.  Where the text is
    longer it is kept as it is, so the cleaned value has as many
    characters as the text. *)
Theorem zip_prefixes_fixed (df : list Raw.row) (out : frame) (r : Col.row) :
  loaded (map Raw.customer_zip_code_prefix df) = true ->
  loaded (map Raw.seller_zip_code_prefix df) = true ->
  preprocess_data parse_datetime df = Ok out ->
  In r (rows out) ->
  exists raw,
    In raw df
    /\ clean_row parse_datetime raw = Ok r
    /\ prefix_fixed (Raw.customer_zip_code_prefix raw)
                    (Col.customer_zip_code_prefix r)
    /\ prefix_fixed (Raw.seller_zip_code_prefix raw)
                    (Col.seller_zip_code_prefix r).
Proof.
  intros _ _ Hout Hr.
  destruct (preprocess_data_rows df) as [kept [Hk H2]].
  rewrite Hk in Hout. inversion Hout; subst. simpl in Hr.
  destruct (Forall2_In_r _ _ _ H2 r Hr) as [raw [Hraw Hc]].
  apply filter_In in Hraw. destruct Hraw as [Hraw _].
  exists raw. split; [assumption|]. split; [assumption|].
  destruct (clean_row_columns raw) as [r' [Hr' [Hz [Hs _]]]].
  rewrite Hc in Hr'. inversion Hr'; subst.
  rewrite Hz, Hs. split; apply fix_prefix_fixed.
Qed.

End PreprocessFacts.

(** ** Series operations *)

Section SeriesFacts.

Context {A : Type}.
Variable eqb : A -> A -> bool.
Hypothesis eqb_spec : forall a b, eqb a b = true <-> a = b.

Lemma eqb_same (a : A) : eqb a a = true.
Proof.
  now apply eqb_spec.
Qed.

Lemma unique_In (col : list A) (x : A) : In x (unique eqb col) <-> In x col.
Proof.
  induction col as [|a col IH]; simpl; [tauto|].
  rewrite filter_In, IH. split.
  - intros [H|[H _]]; auto.
  - intros [H|H]; auto.
    destruct (eqb a x) eqn:E.
    + left. now apply eqb_spec.
    + right. auto.
Qed.

Lemma unique_NoDup (col : list A) : NoDup (unique eqb col).
Proof.
  induction col as [|a col IH]; simpl; constructor.
  - rewrite filter_In. intros [_ H]. now rewrite eqb_same in H.
  - now apply NoDup_filter.
Qed.

Lemma isin_In (v : A) (values : list A) :
  isin eqb v values = true <-> In v values.
Proof.
  unfold isin. rewrite existsb_exists. split.
  - intros [x [Hx E]]. apply eqb_spec in E. now subst.
  - intros H. exists v. split; [assumption|apply eqb_same].
Qed.

Lemma dropna_In (col : list (option A)) (a : A) :
  In a (dropna col) <-> In (Some a) col.
Proof.
  induction col as [|[b|] col IH]; simpl.
  - tauto.
  - rewrite IH. split; intros [H|H]; auto; left; congruence.
  - rewrite IH. split; [auto|]. intros [H|H]; [discriminate|assumption].
Qed.

(** [nunique] counts a duplicate-free list of exactly the values present. *)
Lemma nunique_counts (col : list (option A)) :
  exists vs,
    NoDup vs
    /\ (forall a, In a vs <-> In (Some a) col)
    /\ nunique eqb col = List.length vs.
Proof.
  exists (unique eqb (dropna col)). split; [apply unique_NoDup|]. split.
  - intros a. now rewrite unique_In, dropna_In.
  - reflexivity.
Qed.

End SeriesFacts.

Section SortFacts.

Context {A : Type}.
Variable leb : A -> A -> bool.

Lemma insert_perm (a : A) (l : list A) : Permutation (insert leb a l) (a :: l).
Proof.
  induction l as [|b l IH]; simpl; auto.
  destruct (leb a b); auto.
  rewrite IH. apply perm_swap.
Qed.

Lemma sort_perm (l : list A) : Permutation (sort leb l) l.
Proof.
  induction l as [|a l IH]; simpl; auto.
  rewrite insert_perm. now constructor.
Qed.

Lemma sort_values_perm (ascending : bool) (l : list A) :
  Permutation (sort_values leb ascending l) l.
Proof.
  unfold sort_values. destruct ascending.
  - apply sort_perm.
  - rewrite <- Permutation_rev, sort_perm. symmetry. apply Permutation_rev.
Qed.

Hypothesis leb_total : forall a b, leb a b = true \/ leb b a = true.
Hypothesis leb_trans : forall a b c, leb a b = true -> leb b c = true -> leb a c = true.

Lemma insert_sorted (a : A) (l : list A) :
  StronglySorted (fun x y => leb x y = true) l ->
  StronglySorted (fun x y => leb x y = true) (insert leb a l).
Proof.
  induction 1 as [|b l Hs IH Hb]; simpl.
  - repeat constructor.
  - destruct (leb a b) eqn:E.
    + constructor; [constructor; assumption|].
      constructor; [exact E|].
      eapply Forall_impl; [|exact Hb]. intros c Hc. eapply leb_trans; eauto.
    + constructor; [assumption|].
      eapply Permutation_Forall; [symmetry; apply insert_perm|].
      constructor; [|assumption].
      destruct (leb_total a b) as [H|H]; [congruence|exact H].
Qed.

Lemma sort_sorted (l : list A) :
  StronglySorted (fun x y => leb x y = true) (sort leb l).
Proof.
  induction l as [|a l IH]; simpl; [constructor|now apply insert_sorted].
Qed.

End SortFacts.

Lemma StronglySorted_app {A : Type} (R : A -> A -> Prop) (l1 l2 : list A) :
  StronglySorted R l1 -> StronglySorted R l2 ->
  (forall x y, In x l1 -> In y l2 -> R x y) ->
  StronglySorted R (l1 ++ l2).
Proof.
  induction 1 as [|a l1 Hs IH Ha]; simpl; intros H2 Hx; [assumption|].
  constructor.
  - apply IH; auto.
  - apply Forall_app. split; [assumption|].
    apply Forall_forall. intros y Hy. apply Hx; auto.
Qed.

Lemma StronglySorted_rev {A : Type} (R : A -> A -> Prop) (l : list A) :
  StronglySorted R l -> StronglySorted (fun a b => R b a) (rev l).
Proof.
  induction 1 as [|a l Hs IH Ha]; simpl; [constructor|].
  apply StronglySorted_app; [assumption|repeat constructor|].
  intros x y Hx [<-|[]]. rewrite Forall_forall in Ha.
  apply Ha. now apply in_rev.
Qed.

Lemma StronglySorted_firstn {A : Type} (R : A -> A -> Prop) (n : nat) (l : list A) :
  StronglySorted R l -> StronglySorted R (firstn n l).
Proof.
  intros H. revert n. induction H as [|a l Hs IH Ha]; intros [|n]; simpl;
    try constructor; auto.
  rewrite Forall_forall in *. intros x Hx. apply Ha.
  rewrite <- (firstn_skipn n l). apply in_or_app. auto.
Qed.

(** [sort_values(ascending=False)] followed by [head(n)] yields at most [n]
    rows in descending order. *)
Lemma head_sort_values_desc {A : Type} (leb : A -> A -> bool) (n : nat) (l : list A) :
  (forall a b, leb a b = true \/ leb b a = true) ->
  (forall a b c, leb a b = true -> leb b c = true -> leb a c = true) ->
  (List.length (head n (sort_values leb false l)) <= n)%nat
  /\ StronglySorted (fun a b => leb b a = true) (head n (sort_values leb false l)).
Proof.
  intros Htot Htr. unfold head, sort_values. split.
  - apply firstn_le_length.
  - apply StronglySorted_firstn, StronglySorted_rev.
    now apply sort_sorted.
Qed.

Lemma year_eqb_spec (a b : option Z) : year_eqb a b = true <-> a = b.
Proof.
  destruct a as [x|], b as [y|]; simpl; try (split; congruence).
  rewrite Z.eqb_eq. split; congruence.
Qed.

Lemma period_eqb_spec (p q : period) : period_eqb p q = true <-> p = q.
Proof.
  destruct p as [y m], q as [y' m']. unfold period_eqb. simpl.
  rewrite andb_true_iff, !Z.eqb_eq. split.
  - intros [-> ->]. reflexivity.
  - intros H. inversion H. auto.
Qed.

Lemma zip_prefixes_fixed_witness :
  exists raw,
    In raw sample_orders
    /\ clean_row parse_layout raw = Ok sample_line
    /\ prefix_fixed (Raw.customer_zip_code_prefix raw)
                    (Col.customer_zip_code_prefix sample_line)
    /\ prefix_fixed (Raw.seller_zip_code_prefix raw)
                    (Col.seller_zip_code_prefix sample_line).
Proof.
  apply (zip_prefixes_fixed parse_layout sample_orders sample_data sample_line).
  - reflexivity.
  - reflexivity.
  - reflexivity.
  - left. reflexivity.
Defined.

(** The second sample row has the zip prefix 123456: it is delivered, so
    it stays in the table, and its cleaned prefix has six characters. *)
Lemma zip_prefix_of_six_characters :
  exists out r,
    preprocess_data parse_layout sample_orders = Ok out
    /\ In r (rows out)
    /\ Col.customer_zip_code_prefix r = "123456"
    /\ String.length (Col.customer_zip_code_prefix r) <> 5%nat.
Proof.
  exists sample_data, (nth 1 (rows sample_data) sample_line).
  split; [reflexivity|]. split; [right; left; reflexivity|].
  split; [reflexivity|]. vm_compute. discriminate.
Qed.

(** The timestamp 2018/01/02 23:59:59 converts when its order is the only
    one loaded, to 2 January 2018; loaded after an order written with
    dashes, the same cell comes out of preprocessing as not-a-time. *)
Lemma date_in_other_layout_lost :
  exists kept r,
    Raw.order_purchase_timestamp slash_order = Str "2018/01/02 23:59:59"
    /\ inferred [slash_order] Date.order_purchase_timestamp
                (Raw.order_purchase_timestamp slash_order)
       = Some (mk_datetime 2018 1 2 23 59 59)
    /\ preprocess_data (inferred mixed_layout_orders) mixed_layout_orders
       = Ok (Frame kept)
    /\ nth_error kept 1 = Some r
    /\ Col.order_id r = Raw.order_id slash_order
    /\ Col.order_purchase_timestamp r = NaT.
Proof.
  do 2 eexists.
  split; [reflexivity|]. split; [vm_compute; reflexivity|].
  split; [vm_compute; reflexivity|].
  split; [reflexivity|]. split; reflexivity.
Qed.

(** ** Scenarios *)

(** A zip prefix of a float64 column keeps the text of the float: 1234 is
    printed "1234.0" and is not padded. *)
Example fix_prefix_float :
  Raw.customer_zip_code_prefix float_zip_order = Float "1234.0"
  /\ fix_prefix (Raw.customer_zip_code_prefix float_zip_order) = "1234.0"
  /\ fix_prefix (Float "1234.0") <> "01234".
Proof.
  split; [reflexivity|]. split; [reflexivity|]. vm_compute. discriminate.
Qed.

(** Selecting 2017 alone leaves the single delivered order of that year:
    one order, one unit, and an average equal to its revenue. *)
Example dashboard_2017 :
  dashboard parse_layout sample_orders (Picked [Some 2017%Z])
  = Ok [Kpis 100 1 100 1;
        UnitsTable [("toys", 1%nat)];
        RevenueTable [("toys", 100)];
        RevenueTable [("SP", 100)];
        TrendTable [Trend.mk (mk_datetime 2017 3 1 0 0 0) 100 1]].
Proof.
  vm_compute. reflexivity.
Qed.

(** Selecting 2018 leaves two delivered orders, one of them without a
    parsed purchase timestamp. *)
Example dashboard_2018 :
  dashboard parse_layout sample_orders (Picked [Some 2018%Z])
  = Ok [Kpis 80 2 (80 # 2) 2;
        UnitsTable [("garden", 1%nat); ("toys", 1%nat)];
        RevenueTable [("toys", 50); ("garden", 30)];
        RevenueTable [("RJ", 50); ("MG", 30)];
        TrendTable [Trend.mk (mk_datetime 2018 1 1 0 0 0) 30 1]].
Proof.
  vm_compute. reflexivity.
Qed.

(** ** KPI row *)

Lemma average_order_value_ok (fd : frame) :
  exists v, average_order_value fd = Ok v.
Proof.
  unfold average_order_value, truediv.
  destruct (num_orders fd); simpl; eauto.
Qed.

(** C2: the average order value is always computed without raising; it is
    total_revenue / num_orders when num_orders is positive and 0 when
    num_orders is 0, where num_orders is the length of a duplicate-free
    list of exactly the order ids present in the view. *)
Theorem average_order_value_guarded (fd : frame) :
  exists v,
    average_order_value fd = Ok v
    /\ ((0 < num_orders fd)%nat ->
        v = total_revenue fd / inject_Z (Z.of_nat (num_orders fd)))
    /\ (num_orders fd = 0%nat -> v = 0)
    /\ exists ids,
         NoDup ids
         /\ (forall o, In o ids <->
                       exists r, In r (rows fd) /\ Col.order_id r = Some o)
         /\ num_orders fd = List.length ids.
Proof.
  unfold average_order_value, truediv.
  destruct (num_orders fd) as [|n] eqn:E; simpl.
  - exists 0. split; [reflexivity|]. split; [lia|]. split; [reflexivity|].
    destruct (nunique_counts String.eqb String.eqb_eq
                (map Col.order_id (rows fd))) as [ids [Hn [Hi Hl]]].
    exists ids. split; [assumption|]. split.
    + intros o. rewrite Hi, in_map_iff. split; intros [r [H1 H2]]; eauto.
    + unfold num_orders in E. now rewrite <- Hl.
  - eexists. split; [reflexivity|]. split; [reflexivity|]. split; [discriminate|].
    destruct (nunique_counts String.eqb String.eqb_eq
                (map Col.order_id (rows fd))) as [ids [Hn [Hi Hl]]].
    exists ids. split; [assumption|]. split.
    + intros o. rewrite Hi, in_map_iff. split; intros [r [H1 H2]]; eauto.
    + unfold num_orders in E. now rewrite <- Hl.
Qed.

(** ** Filter *)

Lemma filter_all {A : Type} (p : A -> bool) (l : list A) :
  (forall x, In x l -> p x = true) -> filter p l = l.
Proof.
  induction l as [|a l IH]; simpl; intros H; [reflexivity|].
  rewrite (H a) by auto. f_equal. apply IH. auto.
Qed.

Lemma filter_fst {A B : Type} (p : A -> bool) (l : list (A * B)) :
  map fst (filter (fun x => p (fst x)) l) = filter p (map fst l).
Proof.
  induction l as [|x l IH]; simpl; [reflexivity|].
  destruct (p (fst x)); simpl; now rewrite IH.
Qed.

Lemma boolean_index_rows (df : frame) (mask : Col.row -> bool) :
  rows (boolean_index df mask) = filter mask (rows df).
Proof.
  destruct df as [rs|rs]; simpl; [reflexivity|apply filter_fst].
Qed.

Lemma boolean_index_none (df : frame) :
  boolean_index df (fun _ => false) = Frame []
  \/ boolean_index df (fun _ => false) = FrameYM [].
Proof.
  destruct df as [rs|rs]; simpl; [left|right]; f_equal;
    induction rs; simpl; auto.
Qed.


(** C9: with the widget untouched the selection is the list of all
    distinct years of the cleaned table, and filtering by it returns the
    table itself. *)
Theorem filtered_data_default_is_identity (data : frame) :
  years data Untouched
  = unique year_eqb (map Col.order_purchase_year (rows data))
  /\ filtered_data data (years data Untouched) = data.
Proof.
  split; [reflexivity|].
  unfold filtered_data, years, multiselect.
  assert (H : forall r, In r (rows data) ->
                isin year_eqb (Col.order_purchase_year r)
                     (unique year_eqb (map Col.order_purchase_year (rows data)))
                = true).
  { intros r Hr. apply (isin_In year_eqb year_eqb_spec).
    apply (unique_In year_eqb year_eqb_spec). now apply in_map. }
  destruct data as [rs|rs]; simpl in *; f_equal; apply filter_all.
  - exact H.
  - intros x Hx. apply H. now apply in_map.
Qed.

(** ** The render pass and the filtered view *)

Lemma assign_year_month_rows (fd : frame) :
  rows (assign_year_month fd) = rows fd.
Proof.
  unfold assign_year_month. simpl. rewrite map_map. simpl. apply map_id.
Qed.

Lemma monthly_trend_ok (fd : frame) :
  exists t, monthly_trend (assign_year_month fd) = Ok t.
Proof.
  unfold monthly_trend, monthly_trend_by_period, assign_year_month.
  simpl. eauto.
Qed.

(** C4 (amended): every step after the Filter succeeds and leaves the rows
    of the filtered view, with all the columns they had, as they were.
    The KPI row and the three top-10 steps leave the view itself
    unchanged; the monthly-trend step leaves it with the added column
    year_month. *)
Theorem render_step_frame (s : step) (fd : frame) :
  exists out fd',
    run s fd = Ok (out, fd')
    /\ rows fd' = rows fd
    /\ (s <> MonthlyTrend -> fd' = fd)
    /\ (s = MonthlyTrend -> fd' = assign_year_month fd).
Proof.
  destruct s; unfold run; cbv zeta.
  - destruct (average_order_value_ok fd) as [v ->]. simpl.
    do 2 eexists. split; [reflexivity|]. repeat split; congruence.
  - do 2 eexists. split; [reflexivity|]. repeat split; congruence.
  - do 2 eexists. split; [reflexivity|]. repeat split; congruence.
  - do 2 eexists. split; [reflexivity|]. repeat split; congruence.
  - destruct (monthly_trend_ok fd) as [t ->]. simpl.
    do 2 eexists. split; [reflexivity|].
    split; [apply assign_year_month_rows|]. split; congruence.
Qed.

(** The monthly-trend step run on the sample view returns a view that is
    not the one it was given: the view now carries year_month. *)
Lemma monthly_trend_step_changes_view :
  exists out fd',
    run MonthlyTrend sample_view = Ok (out, fd')
    /\ fd' <> sample_view.
Proof.
  destruct (monthly_trend_ok sample_view) as [t Ht].
  exists (TrendTable t), (assign_year_month sample_view). split.
  - unfold run. cbv zeta. rewrite Ht. reflexivity.
  - vm_compute. discriminate.
Qed.

(** ** Top-10 tables *)

Lemma by_units_total (a b : string * nat) :
  by_units a b = true \/ by_units b a = true.
Proof.
  unfold by_units. rewrite !Nat.leb_le. lia.
Qed.

Lemma by_units_trans (a b c : string * nat) :
  by_units a b = true -> by_units b c = true -> by_units a c = true.
Proof.
  unfold by_units. rewrite !Nat.leb_le. lia.
Qed.

Lemma by_revenue_total (a b : string * Q) :
  by_revenue a b = true \/ by_revenue b a = true.
Proof.
  unfold by_revenue. rewrite !Qle_bool_iff.
  destruct (Qlt_le_dec (snd a) (snd b)) as [H|H]; auto using Qlt_le_weak.
Qed.

Lemma by_revenue_trans (a b c : string * Q) :
  by_revenue a b = true -> by_revenue b c = true -> by_revenue a c = true.
Proof.
  unfold by_revenue. rewrite !Qle_bool_iff. apply Qle_trans.
Qed.

Lemma StronglySorted_impl {A : Type} (R R' : A -> A -> Prop) (l : list A) :
  (forall a b, R a b -> R' a b) -> StronglySorted R l -> StronglySorted R' l.
Proof.
  intros HR. induction 1 as [|a l Hs IH Ha]; constructor; auto.
  eapply Forall_impl; [|exact Ha]. auto.
Qed.

Lemma top_by_units (l : list (string * nat)) :
  (List.length (head 10 (sort_values by_units false l)) <= 10)%nat
  /\ StronglySorted (fun a b => (snd b <= snd a)%nat)
                    (head 10 (sort_values by_units false l)).
Proof.
  destruct (head_sort_values_desc by_units 10 l by_units_total by_units_trans)
    as [Hl Hs].
  split; [assumption|].
  eapply StronglySorted_impl; [|exact Hs].
  intros a b. unfold by_units. now rewrite Nat.leb_le.
Qed.

Lemma top_by_revenue (l : list (string * Q)) :
  (List.length (head 10 (sort_values by_revenue false l)) <= 10)%nat
  /\ StronglySorted (fun a b => snd b <= snd a)
                    (head 10 (sort_values by_revenue false l)).
Proof.
  destruct (head_sort_values_desc by_revenue 10 l by_revenue_total by_revenue_trans)
    as [Hl Hs].
  split; [assumption|].
  eapply StronglySorted_impl; [|exact Hs].
  intros a b. unfold by_revenue. now rewrite Qle_bool_iff.
Qed.

(** C7: each of the three top-10 tables has at most 10 rows, and in each
    every row's measure is at least the measure of every row after it. *)
Theorem top10_bounded_and_descending (fd : frame) :
  ((List.length (top_categories_units fd) <= 10)%nat
   /\ StronglySorted (fun a b => (snd b <= snd a)%nat) (top_categories_units fd))
  /\ ((List.length (top_categories_revenue fd) <= 10)%nat
      /\ StronglySorted (fun a b => snd b <= snd a) (top_categories_revenue fd))
  /\ ((List.length (top_states fd) <= 10)%nat
      /\ StronglySorted (fun a b => snd b <= snd a) (top_states fd)).
Proof.
  unfold top_categories_units, top_categories_revenue, top_states.
  split; [apply top_by_units|]. split; apply top_by_revenue.
Qed.

(** ** Monthly trend *)

Lemma month_of_in_month (p : period) (r : Col.row) :
  has_key period_eqb p (month_of r) = in_month p r.
Proof.
  unfold month_of, year_month_key, in_month, dt_to_period. simpl.
  destruct (Col.order_purchase_timestamp r); reflexivity.
Qed.

Lemma month_of_Some (p : period) (r : Col.row) :
  month_of r = Some p <-> dt_to_period (Col.order_purchase_timestamp r) = Time p.
Proof.
  unfold month_of, year_month_key. simpl.
  destruct (dt_to_period (Col.order_purchase_timestamp r)); split; congruence.
Qed.

Lemma group_rows (p : period) (l : list Col.row) :
  map fst
      (filter (fun x => has_key period_eqb p (year_month_key x))
              (map (fun r => (r, dt_to_period (Col.order_purchase_timestamp r))) l))
  = filter (in_month p) l.
Proof.
  induction l as [|r l IH]; simpl; [reflexivity|].
  change (year_month_key (r, dt_to_period (Col.order_purchase_timestamp r)))
    with (month_of r).
  rewrite month_of_in_month. destruct (in_month p r); simpl; now rewrite IH.
Qed.

(** The monthly trend of a view is one [month_row] per month present. *)
Lemma monthly_trend_assign (fd : frame) :
  monthly_trend (assign_year_month fd) = Ok (map (month_row fd) (months fd)).
Proof.
  unfold monthly_trend, monthly_trend_by_period, assign_year_month,
    groupby_year_month, groupby, months.
  simpl. f_equal. rewrite !map_map. simpl.
  apply map_ext. intros p. unfold month_row.
  rewrite <- (group_rows p (rows fd)), !map_map. reflexivity.
Qed.

Lemma period_leb_total (p q : period) :
  period_leb p q = true \/ period_leb q p = true.
Proof.
  unfold period_leb.
  rewrite !orb_true_iff, !andb_true_iff, !Z.ltb_lt, !Z.eqb_eq, !Z.leb_le. lia.
Qed.

Lemma period_leb_trans (p q r : period) :
  period_leb p q = true -> period_leb q r = true -> period_leb p r = true.
Proof.
  unfold period_leb.
  rewrite !orb_true_iff, !andb_true_iff, !Z.ltb_lt, !Z.eqb_eq, !Z.leb_le. lia.
Qed.

Lemma period_leb_lt (p q : period) :
  period_leb p q = true -> p <> q -> period_lt p q.
Proof.
  destruct p as [y m], q as [y' m']. unfold period_leb, period_lt. simpl.
  rewrite !orb_true_iff, !andb_true_iff, !Z.ltb_lt, !Z.eqb_eq, !Z.leb_le.
  intros H Hne.
  destruct H as [H|[H1 H2]]; [left; assumption|].
  right. split; [assumption|].
  destruct (Z.eq_dec m m') as [E|E]; [|lia].
  exfalso. apply Hne. congruence.
Qed.

Lemma to_timestamp_lt (p q : period) :
  period_lt p q -> datetime_lt (to_timestamp p) (to_timestamp q).
Proof.
  unfold period_lt, datetime_lt, fields, to_timestamp. simpl. tauto.
Qed.

Lemma to_timestamp_inj (p q : period) :
  to_timestamp p = to_timestamp q -> p = q.
Proof.
  destruct p, q. unfold to_timestamp. simpl. congruence.
Qed.

Lemma StronglySorted_strict {A : Type} (R : A -> A -> Prop) (l : list A) :
  StronglySorted R l -> NoDup l ->
  StronglySorted (fun a b => R a b /\ a <> b) l.
Proof.
  induction 1 as [|a l Hs IH Ha]; intros Hn; [constructor|].
  inversion Hn as [|? ? Hin Hn']; subst. constructor; [auto|].
  rewrite Forall_forall in *. intros x Hx. split; [auto|].
  intros ->. contradiction.
Qed.

Lemma StronglySorted_map {A B : Type} (R : A -> A -> Prop) (R' : B -> B -> Prop)
    (f : A -> B) (l : list A) :
  (forall a b, R a b -> R' (f a) (f b)) ->
  StronglySorted R l -> StronglySorted R' (map f l).
Proof.
  intros Hf. induction 1 as [|a l Hs IH Ha]; simpl; constructor; auto.
  rewrite Forall_forall in *. intros y Hy.
  apply in_map_iff in Hy. destruct Hy as [x [<- Hx]]. auto.
Qed.

Lemma months_NoDup (fd : frame) : NoDup (months fd).
Proof.
  unfold months. eapply Permutation_NoDup.
  - symmetry. apply sort_perm.
  - apply unique_NoDup, period_eqb_spec.
Qed.

Lemma sort_In {A : Type} (leb : A -> A -> bool) (l : list A) (x : A) :
  In x (sort leb l) <-> In x l.
Proof.
  split; apply Permutation_in;
    [apply sort_perm|apply Permutation_sym, sort_perm].
Qed.

Lemma months_In (fd : frame) (p : period) :
  In p (months fd) <->
  exists r, In r (rows fd)
            /\ dt_to_period (Col.order_purchase_timestamp r) = Time p.
Proof.
  unfold months.
  rewrite sort_In, (unique_In period_eqb period_eqb_spec), dropna_In, in_map_iff.
  split; intros [r [H1 H2]]; exists r.
  - split; [assumption|]. now apply month_of_Some.
  - split; [|assumption]. now apply month_of_Some.
Qed.

Lemma months_ascending (fd : frame) : StronglySorted period_lt (months fd).
Proof.
  eapply StronglySorted_impl;
    [|apply StronglySorted_strict;
      [apply (sort_sorted period_leb period_leb_total period_leb_trans)
      |apply months_NoDup]].
  intros p q [H1 H2]. now apply period_leb_lt.
Qed.

Lemma in_month_bought_in (p : period) (r : Col.row) :
  in_month p r = bought_in (p_year p) (p_month p) r.
Proof.
  unfold in_month, bought_in, period_eqb, to_period_M.
  destruct (Col.order_purchase_timestamp r) as [t|]; [|reflexivity]. simpl.
  now rewrite (Z.eqb_sym (p_year p)), (Z.eqb_sym (p_month p)).
Qed.

Lemma period_of_timestamp (r : Col.row) (y m : Z) :
  dt_to_period (Col.order_purchase_timestamp r) = Time (mk_period y m) <->
  exists ts, Col.order_purchase_timestamp r = Time ts
             /\ dt_year ts = y /\ dt_month ts = m.
Proof.
  unfold dt_to_period, to_period_M.
  destruct (Col.order_purchase_timestamp r) as [t|]; split.
  - intros H. inversion H. eauto.
  - intros [ts [H [<- <-]]]. inversion H. reflexivity.
  - discriminate.
  - intros [ts [H _]]. discriminate.
Qed.

(** C6: the monthly trend is computed without error.  Its rows are in
    strictly ascending order of month, so no month has two rows; the
    first instant of month [m] of year [y] heads a row exactly when some
    row of the view has a purchase timestamp in that year and month; and
    each row carries the revenue sum and the number of distinct order ids
    over the rows of the view whose purchase timestamp lies in its year
    and month. *)
Theorem monthly_trend_rows (fd : frame) :
  exists t,
    monthly_trend (assign_year_month fd) = Ok t
    /\ StronglySorted datetime_lt (map Trend.year_month t)
    /\ (forall y m,
          In (mk_datetime y m 1 0 0 0) (map Trend.year_month t) <->
          exists r ts, In r (rows fd)
                       /\ Col.order_purchase_timestamp r = Time ts
                       /\ dt_year ts = y /\ dt_month ts = m)
    /\ Forall (fun row =>
                 exists y m,
                   Trend.year_month row = mk_datetime y m 1 0 0 0
                   /\ Trend.total_revenue row
                      = sum (map Col.total_revenue
                                 (filter (bought_in y m) (rows fd)))
                   /\ Trend.order_count row
                      = nunique String.eqb
                          (map Col.order_id (filter (bought_in y m) (rows fd))))
              t.
Proof.
  exists (map (month_row fd) (months fd)).
  split; [apply monthly_trend_assign|]. rewrite map_map. simpl.
  split; [|split].
  - eapply StronglySorted_map; [|apply months_ascending].
    apply to_timestamp_lt.
  - intros y m.
    change (mk_datetime y m 1 0 0 0) with (to_timestamp (mk_period y m)).
    rewrite in_map_iff. split.
    + intros [q [Hq Hin]]. apply to_timestamp_inj in Hq. subst q.
      apply months_In in Hin. destruct Hin as [r [Hr Hp]].
      apply period_of_timestamp in Hp. destruct Hp as [ts Hts].
      exists r, ts. tauto.
    + intros [r [ts [Hr Hts]]]. exists (mk_period y m).
      split; [reflexivity|]. apply months_In. exists r.
      split; [assumption|]. apply period_of_timestamp. eauto.
  - apply Forall_forall. intros row Hrow.
    apply in_map_iff in Hrow. destruct Hrow as [p [<- _]].
    exists (p_year p), (p_month p). unfold month_row. simpl.
    split; [reflexivity|].
    rewrite (filter_ext _ _ (in_month_bought_in p)). auto.
Qed.

(** ** Rows without a purchase timestamp *)

Lemma in_some_month (fd : frame) (r : Col.row) :
  In r (rows fd) ->
  existsb (fun p => in_month p r) (months fd) = has_time r.
Proof.
  intros Hr. unfold has_time. destruct (Col.order_purchase_timestamp r) as [t|] eqn:E.
  - apply existsb_exists. exists (to_period_M t). split.
    + apply months_In. exists r. rewrite E. auto.
    + unfold in_month. rewrite E. now apply period_eqb_spec.
  - apply not_true_is_false. rewrite existsb_exists. intros [p [_ H]].
    unfold in_month in H. rewrite E in H. discriminate.
Qed.

Lemma in_month_has_time (p : period) (r : Col.row) :
  in_month p r = true -> has_time r = true.
Proof.
  unfold in_month, has_time. destruct (Col.order_purchase_timestamp r); auto.
Qed.

Lemma filter_filter_impl {A : Type} (p q : A -> bool) (l : list A) :
  (forall x, p x = true -> q x = true) ->
  filter p (filter q l) = filter p l.
Proof.
  intros H. induction l as [|a l IH]; simpl; [reflexivity|].
  destruct (q a) eqn:Eq; simpl.
  - now rewrite IH.
  - destruct (p a) eqn:Ep; [|assumption].
    apply H in Ep. congruence.
Qed.

Lemma months_timed (fd : frame) :
  months (boolean_index fd has_time) = months fd.
Proof.
  unfold months. rewrite boolean_index_rows. do 2 f_equal.
  induction (rows fd) as [|r l IH]; simpl; [reflexivity|].
  unfold has_time at 1, month_of at 2, year_month_key, dt_to_period. simpl.
  destruct (Col.order_purchase_timestamp r) eqn:E; simpl.
  - unfold month_of at 1, year_month_key. simpl. rewrite E. simpl. now f_equal.
  - assumption.
Qed.

Lemma monthly_trend_timed (fd : frame) :
  monthly_trend (assign_year_month (boolean_index fd has_time))
  = monthly_trend (assign_year_month fd).
Proof.
  rewrite !monthly_trend_assign, months_timed. f_equal.
  apply map_ext. intros p. unfold month_row.
  rewrite boolean_index_rows.
  now rewrite (filter_filter_impl _ _ _ (in_month_has_time p)).
Qed.

Lemma order_ids_In (l : list Col.row) (o : string) :
  In o (unique String.eqb (dropna (map Col.order_id l))) <->
  exists r, In r l /\ Col.order_id r = Some o.
Proof.
  rewrite (unique_In String.eqb String.eqb_eq), dropna_In, in_map_iff.
  split; intros [r [H1 H2]]; eauto.
Qed.

Lemma num_orders_timed_le (fd : frame) :
  (num_orders (boolean_index fd has_time) <= num_orders fd)%nat.
Proof.
  unfold num_orders, nunique. rewrite boolean_index_rows.
  apply NoDup_incl_length; [apply unique_NoDup, String.eqb_eq|].
  intros o. rewrite !order_ids_In. intros [r [Hr Ho]].
  apply filter_In in Hr. exists r. tauto.
Qed.

Lemma num_orders_untimed_lt (fd : frame) (r : Col.row) (o : string) :
  In r (rows fd) ->
  Col.order_id r = Some o ->
  (forall r', In r' (rows (boolean_index fd has_time)) -> Col.order_id r' <> Some o) ->
  (num_orders (boolean_index fd has_time) < num_orders fd)%nat.
Proof.
  intros Hr Ho Hfresh. unfold num_orders, nunique.
  set (ids := unique String.eqb
                (dropna (map Col.order_id (rows (boolean_index fd has_time))))).
  assert (Hlen : (List.length (o :: ids)
                  <= List.length
                       (unique String.eqb (dropna (map Col.order_id (rows fd)))))%nat).
  { apply NoDup_incl_length.
    - constructor; [|apply unique_NoDup, String.eqb_eq].
      unfold ids. rewrite order_ids_In. intros [r' [Hr' Ho']].
      exact (Hfresh r' Hr' Ho').
    - intros x [<-|Hx].
      + apply order_ids_In. eauto.
      + unfold ids in Hx. rewrite order_ids_In in Hx.
        destruct Hx as [r' [Hr' Ho']]. rewrite boolean_index_rows in Hr'.
        apply filter_In in Hr'. apply order_ids_In. exists r'. tauto. }
  simpl in Hlen. lia.
Qed.

Lemma untimed_no_month (r : Col.row) : has_time r = false -> month_of r = None.
Proof.
  unfold has_time, month_of, year_month_key, dt_to_period. simpl.
  destruct (Col.order_purchase_timestamp r); [discriminate|reflexivity].
Qed.

Lemma untimed_months (l : list Col.row) :
  dropna (map month_of (filter (fun r => negb (has_time r)) l)) = [].
Proof.
  induction l as [|r l IH]; simpl; auto.
  destruct (has_time r) eqn:E; simpl; auto.
  now rewrite (untimed_no_month r E).
Qed.

Lemma without_times_months (fd : frame) : months (without_times fd) = [].
Proof.
  unfold months, without_times. simpl.
  replace (dropna (map month_of (map drop_time (rows fd)))) with (@nil period);
    [reflexivity|].
  induction (rows fd) as [|r l IH]; simpl; auto.
Qed.


(** * Further properties of the script *)

(** ** Zip prefixes *)

(** X2: cleaning an already cleaned zip prefix changes nothing. *)
Theorem fix_prefix_idempotent (v : scalar) :
  fix_prefix (Str (fix_prefix v)) = fix_prefix v.
Proof.
  unfold fix_prefix at 1. simpl astype_str. apply zfill_long.
  unfold fix_prefix. rewrite zfill_length. lia.
Qed.

Lemma uint_of_zeros (k : nat) (d : Decimal.uint) :
  NilEmpty.uint_of_string (zeros k ++ NilEmpty.string_of_uint d)
  = Some (Nat.iter k Decimal.D0 d).
Proof.
  induction k as [|k IH]; simpl.
  - apply NilEmpty.usu.
  - rewrite IH. reflexivity.
Qed.

Lemma of_uint_zeros (k : nat) (d : Decimal.uint) :
  Pos.of_uint (Nat.iter k Decimal.D0 d) = Pos.of_uint d.
Proof.
  induction k as [|k IH]; simpl; auto.
Qed.

Lemma digits_nonempty (d : Decimal.uint) :
  d <> Decimal.Nil ->
  NilZero.string_of_uint d = NilEmpty.string_of_uint d
  /\ exists c rest,
       NilEmpty.string_of_uint d = String c rest
       /\ is_sign c = false /\ Ascii.eqb c "-" = false.
Proof.
  intros Hd. destruct d; try congruence;
    (split; [reflexivity|]); simpl; do 2 eexists;
    (split; [reflexivity|]); split; reflexivity.
Qed.

Lemma uint_of_padded (k : nat) (d : Decimal.uint) :
  d <> Decimal.Nil ->
  NilZero.uint_of_string (zeros k ++ NilEmpty.string_of_uint d)
  = Some (Nat.iter k Decimal.D0 d).
Proof.
  intros Hd. rewrite <- uint_of_zeros.
  destruct (digits_nonempty d Hd) as [_ [c [rest [E _]]]].
  destruct k; simpl; [rewrite E|]; reflexivity.
Qed.

Lemma int_of_padded (k : nat) (d : Decimal.uint) :
  d <> Decimal.Nil ->
  int_of_text (zeros k ++ NilEmpty.string_of_uint d) = Some (Z.of_uint d).
Proof.
  intros Hd. unfold int_of_text, NilZero.int_of_string.
  pose proof (uint_of_padded k d Hd) as H.
  destruct (digits_nonempty d Hd) as [_ [c [rest [E [_ Hc]]]]].
  destruct k; simpl in *.
  - rewrite E in *. rewrite Hc, H. simpl. reflexivity.
  - rewrite H. simpl. unfold Z.of_uint. simpl. now rewrite of_uint_zeros.
Qed.

Lemma int_of_negative_padded (k : nat) (d : Decimal.uint) :
  d <> Decimal.Nil ->
  int_of_text (String "-" (zeros k ++ NilEmpty.string_of_uint d))
  = Some (- Z.of_uint d)%Z.
Proof.
  intros Hd. unfold int_of_text, NilZero.int_of_string.
  rewrite Ascii.eqb_refl, (uint_of_padded k d Hd). simpl.
  unfold Z.of_uint. now rewrite of_uint_zeros.
Qed.

Lemma zfill_unsigned (width : nat) (c : ascii) (rest : string) :
  is_sign c = false ->
  exists k, zfill width (String c rest) = (zeros k ++ String c rest)%string.
Proof.
  intros Hc. unfold zfill.
  destruct (width <=? String.length (String c rest))%nat.
  - now exists 0%nat.
  - rewrite Hc. eauto.
Qed.

Lemma zfill_minus (width : nat) (rest : string) :
  exists k, zfill width (String "-" rest) = String "-" (zeros k ++ rest).
Proof.
  unfold zfill.
  destruct (width <=? String.length (String "-" rest))%nat.
  - now exists 0%nat.
  - simpl. eauto.
Qed.

Lemma fix_prefix_reads_back (z : Z) : int_of_text (fix_prefix (Int z)) = Some z.
Proof.
  unfold fix_prefix, astype_str.
  rewrite <- (DecimalZ.of_to z) at 2.
  destruct (Z.to_int z) as [d|d] eqn:E.
  - assert (Hd : d <> Decimal.Nil).
    { destruct z; simpl in E; inversion E; subst;
        [discriminate|apply DecimalPos.Unsigned.to_uint_nonnil]. }
    simpl NilZero.string_of_int.
    destruct (digits_nonempty d Hd) as [-> [c [rest [Es [Hc _]]]]].
    destruct (zfill_unsigned 5 c rest Hc) as [k Hk].
    rewrite Es, Hk, <- Es. simpl Z.of_int. now apply int_of_padded.
  - assert (Hd : d <> Decimal.Nil).
    { destruct z; simpl in E; inversion E; subst.
      apply DecimalPos.Unsigned.to_uint_nonnil. }
    simpl NilZero.string_of_int.
    destruct (digits_nonempty d Hd) as [-> _].
    destruct (zfill_minus 5 (NilEmpty.string_of_uint d)) as [k ->].
    simpl Z.of_int. now apply int_of_negative_padded.
Qed.

(** X3: the cleaned zip prefix of an integer cell reads back, as a decimal
    number, to that integer; so two different integers never get the same
    cleaned prefix. *)
Theorem fix_prefix_round_trip (z : Z) :
  int_of_text (fix_prefix (Int z)) = Some z
  /\ forall z', fix_prefix (Int z) = fix_prefix (Int z') -> z = z'.
Proof.
  split; [apply fix_prefix_reads_back|].
  intros z' H. pose proof (fix_prefix_reads_back z) as H1.
  rewrite H, fix_prefix_reads_back in H1. congruence.
Qed.

(** ** The sidebar options *)

(** X4: the options (and default) of the year widget hold each year of the
    cleaned table exactly once, a missing year included. *)
Theorem years_options (data : frame) :
  NoDup (years data Untouched)
  /\ forall y, In y (years data Untouched) <->
               exists r, In r (rows data) /\ Col.order_purchase_year r = y.
Proof.
  unfold years, multiselect. split.
  - apply unique_NoDup, year_eqb_spec.
  - intros y. rewrite (unique_In year_eqb year_eqb_spec), in_map_iff.
    split; intros [r [H1 H2]]; eauto.
Qed.

(** ** The Filter as an operation on views *)

Lemma boolean_index_ext (df : frame) (p q : Col.row -> bool) :
  (forall r, In r (rows df) -> p r = q r) ->
  boolean_index df p = boolean_index df q.
Proof.
  intros H. destruct df as [rs|rs]; simpl in *; f_equal; apply filter_ext_in.
  - exact H.
  - intros x Hx. apply H. now apply in_map.
Qed.

Lemma boolean_index_twice (df : frame) (p q : Col.row -> bool) :
  boolean_index (boolean_index df p) q
  = boolean_index df (fun r => p r && q r).
Proof.
  destruct df as [rs|rs]; simpl; f_equal.
  - induction rs as [|r rs IH]; simpl; [reflexivity|].
    destruct (p r); simpl; [destruct (q r)|]; now rewrite IH.
  - induction rs as [|r rs IH]; simpl; [reflexivity|].
    destruct (p (fst r)); simpl; [destruct (q (fst r))|]; now rewrite IH.
Qed.

Lemma isin_ext (v : option Z) (ys ys' : list (option Z)) :
  (forall y, In y ys <-> In y ys') ->
  isin year_eqb v ys = isin year_eqb v ys'.
Proof.
  intros H. apply eq_true_iff_eq.
  now rewrite !(isin_In year_eqb year_eqb_spec).
Qed.

(** X5: the filtered view depends only on which years are selected, not on
    the order in which they were picked or on repetitions. *)
Theorem filtered_data_by_set (data : frame) (ys ys' : list (option Z)) :
  (forall y, In y ys <-> In y ys') ->
  filtered_data data ys = filtered_data data ys'.
Proof.
  intros H. unfold filtered_data. apply boolean_index_ext.
  intros r _. now apply isin_ext.
Qed.

Lemma filtered_data_by_set_witness :
  filtered_data sample_data [Some 2017%Z; Some 2018%Z]
  = filtered_data sample_data [Some 2018%Z; Some 2017%Z; Some 2018%Z].
Proof.
  apply (filtered_data_by_set sample_data
           [Some 2017%Z; Some 2018%Z] [Some 2018%Z; Some 2017%Z; Some 2018%Z]).
  intros y. simpl. tauto.
Defined.

(** X6: filtering a filtered view by a second selection is filtering the
    table by the years the two selections share; filtering twice by the
    same selection is filtering once. *)
Theorem filtered_data_twice (data : frame) (ys ys' : list (option Z)) :
  filtered_data (filtered_data data ys) ys'
  = filtered_data data (filter (fun y => isin year_eqb y ys') ys)
  /\ filtered_data (filtered_data data ys) ys = filtered_data data ys.
Proof.
  assert (H : forall zs,
             filtered_data (filtered_data data ys) zs
             = boolean_index data
                 (fun r => isin year_eqb (Col.order_purchase_year r) ys
                           && isin year_eqb (Col.order_purchase_year r) zs))
    by (intros; apply boolean_index_twice).
  split; rewrite H; unfold filtered_data; apply boolean_index_ext; intros r _.
  - apply eq_true_iff_eq.
    rewrite andb_true_iff, !(isin_In year_eqb year_eqb_spec), filter_In.
    now rewrite (isin_In year_eqb year_eqb_spec).
  - now rewrite andb_diag.
Qed.

(** ** The rows that reach the aggregations *)

(** X8: every row that reaches the aggregations is a delivered row of the
    cleaned table whose purchase year is among the selected years. *)
Theorem view_rows_delivered_and_selected
    (parse_datetime : Date.column -> scalar -> option datetime)
    (raw : list Raw.row) (w : widget) :
  exists data,
    preprocess_data parse_datetime raw = Ok data
    /\ Forall (fun r => Col.order_status r = Some "delivered"
                        /\ In (Col.order_purchase_year r) (years data w)
                        /\ In r (rows data))
              (rows (filtered_data data (years data w))).
Proof.
  destruct (preprocess_data_rows parse_datetime raw) as [kept [Hk _]].
  exists (Frame kept). split; [assumption|].
  apply Forall_forall. intros r Hr.
  unfold filtered_data in Hr. rewrite boolean_index_rows in Hr.
  apply filter_In in Hr. destruct Hr as [Hin Hy].
  apply (isin_In year_eqb year_eqb_spec) in Hy.
  split; [|split; assumption].
  unfold preprocess_data in Hk.
  destruct (mapM (clean_row parse_datetime) raw) as [cleaned|]; simpl in Hk;
    [|discriminate].
  inversion Hk; subst. simpl in Hin. apply filter_In in Hin.
  now apply eq_text_true.
Qed.

(** ** KPI row *)

Lemma unique_length {A : Type} (eqb : A -> A -> bool) (l : list A) :
  (List.length (unique eqb l) <= List.length l)%nat.
Proof.
  induction l as [|a l IH]; simpl; [lia|].
  pose proof (filter_length_le (fun b => negb (eqb a b)) (unique eqb l)). lia.
Qed.

Lemma dropna_length {A : Type} (col : list (option A)) :
  (List.length (dropna col) <= List.length col)%nat.
Proof.
  induction col as [|[a|] col IH]; simpl; lia.
Qed.

(** X9: the number of orders never exceeds the number of units sold. *)
Theorem num_orders_le_units_sold (fd : frame) :
  (num_orders fd <= units_sold fd)%nat.
Proof.
  unfold num_orders, nunique, units_sold, count.
  pose proof (unique_length String.eqb (dropna (map Col.order_id (rows fd)))).
  pose proof (dropna_length (map Col.order_id (rows fd))).
  rewrite !length_map in *. lia.
Qed.

(** ** Aggregates over a partition by key *)

Section KeyedSums.

Context {X K : Type}.
Variable m : K -> X -> bool.

Lemma nunique_filter_or (g : X -> option string) (p q : X -> bool) (l : list X) :
  (nunique String.eqb (map g (filter (fun x => p x || q x) l))
   <= nunique String.eqb (map g (filter p l))
      + nunique String.eqb (map g (filter q l)))%nat.
Proof.
  unfold nunique. rewrite <- length_app.
  apply NoDup_incl_length; [apply unique_NoDup, String.eqb_eq|].
  intros o Ho. apply in_or_app.
  rewrite !(unique_In String.eqb String.eqb_eq), !dropna_In, !in_map_iff in *.
  destruct Ho as [x [Hx Hin]]. apply filter_In in Hin.
  destruct Hin as [Hin Hpq]. apply orb_true_iff in Hpq.
  destruct Hpq as [Hp|Hq]; [left|right]; exists x;
    (split; [assumption|]); apply filter_In; auto.
Qed.

(** Distinct counts taken key by key add up to at least the distinct count
    over all the keyed rows. *)
Lemma nunique_over_keys (g : X -> option string) (l : list X) (ks : list K) :
  (nunique String.eqb
     (map g (filter (fun x => existsb (fun k => m k x) ks) l))
   <= total (map (fun k => nunique String.eqb (map g (filter (m k) l))) ks))%nat.
Proof.
  induction ks as [|k ks IH]; cbn [existsb map total fold_right].
  - replace (filter (fun _ => false) l) with (@nil X);
      [unfold nunique; simpl; lia|].
    induction l; simpl; auto.
  - pose proof (nunique_filter_or g (m k)
                  (fun x => existsb (fun k => m k x) ks) l) as H.
    unfold total in IH. lia.
Qed.

Hypothesis m_same : forall k k' x, m k x = true -> m k' x = true -> k = k'.

Lemma keys_disjoint (k : K) (ks : list K) (x : X) :
  ~ In k ks -> m k x = true -> existsb (fun k' => m k' x) ks = false.
Proof.
  intros Hk Hx. apply not_true_is_false. rewrite existsb_exists.
  intros [k' [Hin Hk']]. rewrite (m_same k k' x Hx Hk') in Hk. contradiction.
Qed.

Lemma length_filter_or (p q : X -> bool) (l : list X) :
  (forall x, p x = true -> q x = false) ->
  List.length (filter (fun x => p x || q x) l)
  = (List.length (filter p l) + List.length (filter q l))%nat.
Proof.
  intros Hd. induction l as [|x l IH]; simpl; [reflexivity|].
  destruct (p x) eqn:Ep; simpl.
  - rewrite (Hd x Ep). simpl. lia.
  - destruct (q x); simpl; lia.
Qed.

Lemma count_over_keys (l : list X) (ks : list K) :
  NoDup ks ->
  total (map (fun k => List.length (filter (m k) l)) ks)
  = List.length (filter (fun x => existsb (fun k => m k x) ks) l).
Proof.
  induction 1 as [|k ks Hk Hn IH]; cbn [existsb map total fold_right].
  - induction l; simpl; auto.
  - rewrite length_filter_or; [|intros x; now apply keys_disjoint].
    unfold total in IH. lia.
Qed.

End KeyedSums.

Lemma year_eqb_same (y y' : option Z) (r : Col.row) :
  isin year_eqb (Col.order_purchase_year r) [y] = true ->
  isin year_eqb (Col.order_purchase_year r) [y'] = true ->
  y = y'.
Proof.
  rewrite !(isin_In year_eqb year_eqb_spec). simpl. intuition congruence.
Qed.

Lemma isin_singletons (v : option Z) (ys : list (option Z)) :
  existsb (fun y => isin year_eqb v [y]) ys = isin year_eqb v ys.
Proof.
  unfold isin. induction ys as [|y ys IH]; cbn [existsb] in *; [reflexivity|].
  now rewrite IH, orb_false_r.
Qed.

(** X10: over a selection without repetitions, the units sold of the
    view are the sum of the units sold of the single-year views, and the
    number of orders is at most the sum of the single-year numbers of
    orders. *)
Theorem kpis_add_over_years (data : frame) (ys : list (option Z)) :
  NoDup ys ->
  units_sold (filtered_data data ys)
  = total (map (fun y => units_sold (filtered_data data [y])) ys)
  /\ (num_orders (filtered_data data ys)
      <= total (map (fun y => num_orders (filtered_data data [y])) ys))%nat.
Proof.
  intros Hn.
  set (m := fun (y : option Z) (r : Col.row) =>
              isin year_eqb (Col.order_purchase_year r) [y]).
  assert (Hrows : forall zs,
             rows (filtered_data data zs)
             = filter (fun r => isin year_eqb (Col.order_purchase_year r) zs)
                      (rows data))
    by (intros; apply boolean_index_rows).
  assert (Hall : rows (filtered_data data ys)
                 = filter (fun r => existsb (fun y => m y r) ys) (rows data)).
  { rewrite Hrows. apply filter_ext. intros r. symmetry. apply isin_singletons. }
  split.
  - unfold units_sold, count. rewrite Hall, length_map.
    rewrite <- (count_over_keys m year_eqb_same _ _ Hn).
    f_equal. apply map_ext. intros y. now rewrite length_map, Hrows.
  - unfold num_orders. rewrite Hall.
    etransitivity; [apply (nunique_over_keys m Col.order_id)|].
    apply Nat.eq_le_incl. f_equal. apply map_ext. intros y. now rewrite Hrows.
Qed.

Lemma kpis_add_over_years_witness :
  units_sold (filtered_data sample_data [Some 2017%Z; Some 2018%Z])
  = total (map (fun y => units_sold (filtered_data sample_data [y]))
               [Some 2017%Z; Some 2018%Z])
  /\ (num_orders (filtered_data sample_data [Some 2017%Z; Some 2018%Z])
      <= total (map (fun y => num_orders (filtered_data sample_data [y]))
                    [Some 2017%Z; Some 2018%Z]))%nat.
Proof.
  apply (kpis_add_over_years sample_data [Some 2017%Z; Some 2018%Z]).
  repeat constructor; simpl; intuition discriminate.
Defined.

(** ** Grouping *)

Section GroupbyFacts.

Context {X K : Type}.
Variable eqb leb : K -> K -> bool.
Variable key : X -> option K.
Hypothesis eqb_spec : forall a b, eqb a b = true <-> a = b.

Lemma groupby_keys (df : list X) :
  map fst (groupby eqb leb key df)
  = sort leb (unique eqb (dropna (map key df))).
Proof.
  unfold groupby. rewrite map_map. simpl. apply map_id.
Qed.

Lemma groupby_keys_NoDup (df : list X) :
  NoDup (map fst (groupby eqb leb key df)).
Proof.
  rewrite groupby_keys. eapply Permutation_NoDup.
  - symmetry. apply sort_perm.
  - now apply unique_NoDup.
Qed.

Lemma groupby_In (df : list X) (k : K) (g : list X) :
  In (k, g) (groupby eqb leb key df) <->
  (exists x, In x df /\ key x = Some k)
  /\ g = filter (fun x => has_key eqb k (key x)) df.
Proof.
  unfold groupby. rewrite in_map_iff. split.
  - intros [k' [E Hin]]. inversion E; subst. split; [|reflexivity].
    rewrite sort_In, (unique_In eqb eqb_spec), dropna_In, in_map_iff in Hin.
    destruct Hin as [x [H1 H2]]. eauto.
  - intros [[x [H1 H2]] ->]. exists k. split; [reflexivity|].
    rewrite sort_In, (unique_In eqb eqb_spec), dropna_In, in_map_iff. eauto.
Qed.

Lemma groupby_length (df : list X) :
  List.length (groupby eqb leb key df) = nunique eqb (map key df).
Proof.
  unfold groupby, nunique. rewrite length_map.
  apply Permutation_length, sort_perm.
Qed.

End GroupbyFacts.

Lemma StronglySorted_app_inv {A : Type} (R : A -> A -> Prop) (l1 l2 : list A) :
  StronglySorted R (l1 ++ l2) ->
  forall x y, In x l1 -> In y l2 -> R x y.
Proof.
  induction l1 as [|a l1 IH]; simpl; intros H x y Hx Hy; [contradiction|].
  apply StronglySorted_inv in H. destruct H as [Hs Ha].
  destruct Hx as [<-|Hx].
  - rewrite Forall_forall in Ha. apply Ha, in_or_app. auto.
  - now apply IH.
Qed.

Lemma NoDup_firstn {A : Type} (n : nat) (l : list A) :
  NoDup l -> NoDup (firstn n l).
Proof.
  intros H. rewrite <- (firstn_skipn n l) in H.
  now apply NoDup_app_remove_r in H.
Qed.

Lemma in_firstn {A : Type} (n : nat) (l : list A) (x : A) :
  In x (firstn n l) -> In x l.
Proof.
  intros H. rewrite <- (firstn_skipn n l). apply in_or_app. auto.
Qed.

Lemma total_perm (l l' : list nat) : Permutation l l' -> total l = total l'.
Proof.
  unfold total. induction 1; simpl; lia.
Qed.

Lemma total_firstn (n : nat) (l : list nat) : (total (firstn n l) <= total l)%nat.
Proof.
  unfold total. revert n. induction l as [|a l IH]; intros [|n]; simpl; try lia.
  specialize (IH n). lia.
Qed.

(** ** Top-10 tables *)

Section TopFacts.

Context {M : Type}.
Variable key : Col.row -> option string.
Variable agg : list Col.row -> M.
Variable leb : string * M -> string * M -> bool.
Hypothesis leb_total : forall a b, leb a b = true \/ leb b a = true.
Hypothesis leb_trans :
  forall a b c, leb a b = true -> leb b c = true -> leb a c = true.

Lemma aggregated_In (fd : frame) (e : string * M) :
  In e (map (fun g => (fst g, agg (snd g)))
            (groupby String.eqb String.leb key (rows fd))) <->
  (exists r, In r (rows fd) /\ key r = Some (fst e))
  /\ snd e = agg (group_of key (fst e) fd).
Proof.
  rewrite in_map_iff. split.
  - intros [[k g] [<- Hin]]. simpl.
    apply (groupby_In String.eqb String.leb key String.eqb_eq) in Hin.
    destruct Hin as [Hx ->]. auto.
  - intros [Hx He]. exists (fst e, group_of key (fst e) fd). split.
    + simpl. rewrite <- He. now destruct e.
    + apply (groupby_In String.eqb String.leb key String.eqb_eq). auto.
Qed.

Lemma top10_In (fd : frame) (e : string * M) :
  In e (top10 key agg leb fd) ->
  (exists r, In r (rows fd) /\ key r = Some (fst e))
  /\ snd e = agg (group_of key (fst e) fd).
Proof.
  intros H. apply aggregated_In. unfold top10, head in H.
  apply in_firstn in H.
  eapply Permutation_in; [apply sort_values_perm|exact H].
Qed.

Lemma top10_keys_NoDup (fd : frame) : NoDup (map fst (top10 key agg leb fd)).
Proof.
  unfold top10, head. rewrite <- firstn_map. apply NoDup_firstn.
  eapply Permutation_NoDup.
  - symmetry. apply Permutation_map, sort_values_perm.
  - rewrite map_map. simpl.
    apply (groupby_keys_NoDup String.eqb String.leb key String.eqb_eq).
Qed.

Lemma top10_length (fd : frame) :
  List.length (top10 key agg leb fd)
  = Nat.min 10 (nunique String.eqb (map key (rows fd))).
Proof.
  unfold top10, head. rewrite length_firstn. f_equal.
  rewrite (Permutation_length (sort_values_perm leb false _)), length_map.
  apply groupby_length.
Qed.

Lemma top10_top (fd : frame) (k : string) (r : Col.row) :
  In r (rows fd) -> key r = Some k ->
  In (k, agg (group_of key k fd)) (top10 key agg leb fd)
  \/ forall e, In e (top10 key agg leb fd) ->
               leb (k, agg (group_of key k fd)) e = true.
Proof.
  intros Hr Hk. unfold top10, head.
  set (all := map (fun g => (fst g, agg (snd g)))
                  (groupby String.eqb String.leb key (rows fd))).
  assert (Hin : In (k, agg (group_of key k fd)) (sort_values leb false all)).
  { eapply Permutation_in; [symmetry; apply sort_values_perm|].
    apply aggregated_In. simpl. eauto. }
  assert (Hs : StronglySorted (fun a b => leb b a = true)
                              (sort_values leb false all)).
  { unfold sort_values. apply StronglySorted_rev. now apply sort_sorted. }
  rewrite <- (firstn_skipn 10 (sort_values leb false all)) in Hin, Hs.
  apply in_app_or in Hin. destruct Hin as [Hin|Hin]; [left; assumption|].
  right. intros e He.
  exact (StronglySorted_app_inv _ _ _ Hs e _ He Hin).
Qed.

End TopFacts.

Lemma count_map {A : Type} (f : A -> string) (l : list A) :
  count (map f l) = List.length l.
Proof.
  unfold count. apply length_map.
Qed.

Lemma top_categories_units_top10 (fd : frame) :
  top_categories_units fd
  = top10 Col.product_category_name_english
          (fun g => count (map Col.order_item_id g)) by_units fd.
Proof.
  reflexivity.
Qed.

Lemma top_categories_revenue_top10 (fd : frame) :
  top_categories_revenue fd
  = top10 Col.product_category_name_english
          (fun g => sum (map Col.total_revenue g)) by_revenue fd.
Proof.
  reflexivity.
Qed.

Lemma top_states_top10 (fd : frame) :
  top_states fd
  = top10 Col.customer_state
          (fun g => sum (map Col.total_revenue g)) by_revenue fd.
Proof.
  reflexivity.
Qed.

(** X11: in each top-10 table no key appears twice, every key is one that
    some row of the view carries, and the measure beside it is computed
    from all the rows of the view with that key: their number in the units
    table, the sum of their revenue in the two revenue tables. *)
Theorem top_tables_contents (fd : frame) :
  (NoDup (map fst (top_categories_units fd))
   /\ forall c n,
        In (c, n) (top_categories_units fd) ->
        (exists r, In r (rows fd)
                   /\ Col.product_category_name_english r = Some c)
        /\ n = List.length (group_of Col.product_category_name_english c fd))
  /\ (NoDup (map fst (top_categories_revenue fd))
      /\ forall c q,
           In (c, q) (top_categories_revenue fd) ->
           (exists r, In r (rows fd)
                      /\ Col.product_category_name_english r = Some c)
           /\ q = sum (map Col.total_revenue
                           (group_of Col.product_category_name_english c fd)))
  /\ (NoDup (map fst (top_states fd))
      /\ forall s q,
           In (s, q) (top_states fd) ->
           (exists r, In r (rows fd) /\ Col.customer_state r = Some s)
           /\ q = sum (map Col.total_revenue (group_of Col.customer_state s fd))).
Proof.
  rewrite top_categories_units_top10, top_categories_revenue_top10,
    top_states_top10.
  split; [|split]; (split; [apply top10_keys_NoDup|]).
  - intros c n H.
    apply (top10_In Col.product_category_name_english
             (fun g => count (map Col.order_item_id g)) by_units) in H.
    simpl in H. now rewrite count_map in H.
  - intros c q H.
    now apply (top10_In Col.product_category_name_english
                 (fun g => sum (map Col.total_revenue g)) by_revenue) in H.
  - intros s q H.
    now apply (top10_In Col.customer_state
                 (fun g => sum (map Col.total_revenue g)) by_revenue) in H.
Qed.

(** X12: the tables hold the largest measures.  A category or state of the
    view that is missing from its table has a measure no larger than any
    measure in the table. *)
Theorem top_tables_hold_the_largest (fd : frame) :
  (forall r c,
     In r (rows fd) -> Col.product_category_name_english r = Some c ->
     In (c, List.length (group_of Col.product_category_name_english c fd))
        (top_categories_units fd)
     \/ forall e, In e (top_categories_units fd) ->
                  (List.length (group_of Col.product_category_name_english c fd)
                   <= snd e)%nat)
  /\ (forall r c,
        In r (rows fd) -> Col.product_category_name_english r = Some c ->
        In (c, sum (map Col.total_revenue
                        (group_of Col.product_category_name_english c fd)))
           (top_categories_revenue fd)
        \/ forall e, In e (top_categories_revenue fd) ->
                     sum (map Col.total_revenue
                              (group_of Col.product_category_name_english c fd))
                     <= snd e)
  /\ (forall r s,
        In r (rows fd) -> Col.customer_state r = Some s ->
        In (s, sum (map Col.total_revenue (group_of Col.customer_state s fd)))
           (top_states fd)
        \/ forall e, In e (top_states fd) ->
                     sum (map Col.total_revenue (group_of Col.customer_state s fd))
                     <= snd e).
Proof.
  rewrite top_categories_units_top10, top_categories_revenue_top10,
    top_states_top10.
  split; [|split]; intros r k Hr Hk.
  - destruct (top10_top Col.product_category_name_english
                (fun g => count (map Col.order_item_id g)) by_units
                by_units_total by_units_trans fd k r Hr Hk) as [H|H];
      rewrite count_map in H; [left; exact H|right].
    intros e He. specialize (H e He). unfold by_units in H. simpl in H.
    now apply Nat.leb_le.
  - destruct (top10_top Col.product_category_name_english
                (fun g => sum (map Col.total_revenue g)) by_revenue
                by_revenue_total by_revenue_trans fd k r Hr Hk) as [H|H];
      [left; exact H|right].
    intros e He. specialize (H e He). unfold by_revenue in H. simpl in H.
    now apply Qle_bool_iff.
  - destruct (top10_top Col.customer_state
                (fun g => sum (map Col.total_revenue g)) by_revenue
                by_revenue_total by_revenue_trans fd k r Hr Hk) as [H|H];
      [left; exact H|right].
    intros e He. specialize (H e He). unfold by_revenue in H. simpl in H.
    now apply Qle_bool_iff.
Qed.

(** X13: a top-10 table has one row per distinct key of the view, up to
    10: with ten or fewer categories (or states) none is left out. *)
Theorem top_tables_length (fd : frame) :
  List.length (top_categories_units fd)
  = Nat.min 10 (nunique String.eqb
                  (map Col.product_category_name_english (rows fd)))
  /\ List.length (top_categories_revenue fd)
     = Nat.min 10 (nunique String.eqb
                     (map Col.product_category_name_english (rows fd)))
  /\ List.length (top_states fd)
     = Nat.min 10 (nunique String.eqb (map Col.customer_state (rows fd))).
Proof.
  rewrite top_categories_units_top10, top_categories_revenue_top10,
    top_states_top10.
  split; [|split]; apply top10_length.
Qed.

Lemma has_key_same (k k' : string) (v : option string) :
  has_key String.eqb k v = true -> has_key String.eqb k' v = true -> k = k'.
Proof.
  destruct v as [s|]; simpl; [|discriminate].
  rewrite !String.eqb_eq. congruence.
Qed.

(** X14: the units listed in the top-10 category table add up to at most
    the units sold. *)
Theorem top_units_at_most_units_sold (fd : frame) :
  (total (map snd (top_categories_units fd)) <= units_sold fd)%nat.
Proof.
  unfold top_categories_units, head. rewrite <- firstn_map.
  etransitivity; [apply total_firstn|].
  rewrite (total_perm _ _ (Permutation_map snd (sort_values_perm by_units false _))).
  unfold groupby. rewrite !map_map. simpl.
  erewrite map_ext; [|intros k; apply count_map].
  rewrite (count_over_keys
             (fun k r => has_key String.eqb k (Col.product_category_name_english r))
             (fun k k' r => has_key_same k k' _)).
  - unfold units_sold. rewrite count_map. apply filter_length_le.
  - eapply Permutation_NoDup; [symmetry; apply sort_perm|].
    apply unique_NoDup, String.eqb_eq.
Qed.

(** ** Monthly trend: order counts and plotted instants *)

(** X15: the monthly order counts add up to at least the number of
    distinct orders among the rows with a purchase timestamp: an order is
    counted once in every month in which it has a row. *)
Theorem monthly_order_counts_cover_orders (fd : frame) :
  exists t,
    monthly_trend (assign_year_month fd) = Ok t
    /\ (num_orders (boolean_index fd has_time) <= trend_orders t)%nat.
Proof.
  exists (map (month_row fd) (months fd)).
  split; [apply monthly_trend_assign|].
  unfold num_orders, trend_orders. rewrite boolean_index_rows, map_map. simpl.
  rewrite <- (filter_ext_in _ _ _ (in_some_month fd)).
  apply (nunique_over_keys in_month Col.order_id (rows fd) (months fd)).
Qed.

(** ** Edge cases of the KPI row *)

Lemma dropna_all_missing {A : Type} (col : list (option A)) :
  (forall v, In v col -> v = None) -> dropna col = [].
Proof.
  induction col as [|[a|] col IH]; simpl; intros H; auto.
  specialize (H (Some a) (or_introl eq_refl)). discriminate.
Qed.

(** X18: when no row of the view has an order id, the number of orders is
    0 and the average order value shown is 0, whatever the revenue. *)
Theorem average_without_order_ids (fd : frame) :
  (forall r, In r (rows fd) -> Col.order_id r = None) ->
  num_orders fd = 0%nat /\ average_order_value fd = Ok 0.
Proof.
  intros H.
  assert (Hn : num_orders fd = 0%nat).
  { unfold num_orders, nunique. rewrite dropna_all_missing; [reflexivity|].
    intros v Hv. apply in_map_iff in Hv. destruct Hv as [r [<- Hr]]. auto. }
  split; [assumption|]. unfold average_order_value. now rewrite Hn.
Qed.

Lemma average_without_order_ids_witness :
  num_orders unidentified_view = 0%nat
  /\ average_order_value unidentified_view = Ok 0.
Proof.
  apply (average_without_order_ids unidentified_view).
  simpl. intros r [<-|[]]. reflexivity.
Defined.

(** ** Selecting more years *)

Lemma filter_length_mono {A : Type} (p q : A -> bool) (l : list A) :
  (forall x, p x = true -> q x = true) ->
  (List.length (filter p l) <= List.length (filter q l))%nat.
Proof.
  intros H. induction l as [|a l IH]; simpl; [lia|].
  destruct (p a) eqn:Ep.
  - rewrite (H a Ep). simpl. lia.
  - destruct (q a); simpl; lia.
Qed.

(** X19: adding years to the selection never lowers the units sold or the
    number of orders, and never removes a row from the view. *)
Theorem selecting_more_years (data : frame) (ys ys' : list (option Z)) :
  (forall y, In y ys -> In y ys') ->
  (forall r, In r (rows (filtered_data data ys)) ->
             In r (rows (filtered_data data ys')))
  /\ (units_sold (filtered_data data ys) <= units_sold (filtered_data data ys'))%nat
  /\ (num_orders (filtered_data data ys) <= num_orders (filtered_data data ys'))%nat.
Proof.
  intros Hincl.
  assert (Himp : forall r,
             isin year_eqb (Col.order_purchase_year r) ys = true ->
             isin year_eqb (Col.order_purchase_year r) ys' = true).
  { intros r. rewrite !(isin_In year_eqb year_eqb_spec). auto. }
  assert (Hrows : forall r, In r (rows (filtered_data data ys)) ->
                            In r (rows (filtered_data data ys'))).
  { intros r. unfold filtered_data. rewrite !boolean_index_rows, !filter_In.
    intros [H1 H2]. auto. }
  split; [exact Hrows|]. split.
  - unfold units_sold, filtered_data. rewrite !count_map, !boolean_index_rows.
    now apply filter_length_mono.
  - unfold num_orders, nunique.
    apply NoDup_incl_length; [apply unique_NoDup, String.eqb_eq|].
    intros o. rewrite !order_ids_In. intros [r [Hr Ho]]. eauto.
Qed.

Lemma selecting_more_years_witness :
  (forall r, In r (rows (filtered_data sample_data [Some 2017%Z])) ->
             In r (rows (filtered_data sample_data [Some 2017%Z; Some 2018%Z])))
  /\ (units_sold (filtered_data sample_data [Some 2017%Z])
      <= units_sold (filtered_data sample_data [Some 2017%Z; Some 2018%Z]))%nat
  /\ (num_orders (filtered_data sample_data [Some 2017%Z])
      <= num_orders (filtered_data sample_data [Some 2017%Z; Some 2018%Z]))%nat.
Proof.
  apply (selecting_more_years sample_data [Some 2017%Z] [Some 2017%Z; Some 2018%Z]).
  simpl. intros y [<-|[]]. left. reflexivity.
Defined.

(** ** Metric texts *)

(** ** Metric texts *)

Lemma group3_strip (n : nat) :
  forall l, (List.length l <= n)%nat ->
  filter (fun c => negb (Ascii.eqb c ",")) (group3 l)
  = filter (fun c => negb (Ascii.eqb c ",")) l.
Proof.
  induction n as [|n IH]; intros l Hl.
  - destruct l; [reflexivity|simpl in Hl; lia].
  - destruct l as [|a [|b [|c [|d rest]]]]; try reflexivity.
    change (group3 (a :: b :: c :: d :: rest))
      with (a :: b :: c :: ","%char :: group3 (d :: rest)).
    assert (Hrest : (List.length (d :: rest) <= n)%nat) by (simpl in *; lia).
    specialize (IH (d :: rest) Hrest).
    set (f := fun c : ascii => negb (Ascii.eqb c ",")) in *.
    change (a :: b :: c :: ","%char :: group3 (d :: rest))
      with (([a; b; c] ++ [","%char]) ++ group3 (d :: rest)).
    change (a :: b :: c :: d :: rest) with ([a; b; c] ++ d :: rest).
    rewrite !filter_app, IH.
    change (filter f [","%char]) with (@nil ascii).
    now rewrite app_nil_r.
Qed.

Lemma group3_length (n : nat) :
  forall l, (List.length l <= n)%nat ->
  List.length (group3 l)
  = (List.length l + (List.length l - 1) / 3)%nat.
Proof.
  induction n as [|n IH]; intros l Hl.
  - destruct l; [reflexivity|simpl in Hl; lia].
  - destruct l as [|a [|b [|c [|d rest]]]]; try reflexivity.
    change (group3 (a :: b :: c :: d :: rest))
      with (a :: b :: c :: ","%char :: group3 (d :: rest)).
    cbn [List.length]. rewrite (IH (d :: rest)) by (simpl in *; lia).
    cbn [List.length].
    replace (S (S (S (S (List.length rest)))) - 1)%nat
      with (List.length rest + 1 * 3)%nat by lia.
    rewrite Nat.div_add by lia.
    replace (S (List.length rest) - 1)%nat with (List.length rest) by lia.
    lia.
Qed.

Lemma digits_no_comma (d : Decimal.uint) :
  filter (fun c => negb (Ascii.eqb c ","))
         (list_ascii_of_string (NilEmpty.string_of_uint d))
  = list_ascii_of_string (NilEmpty.string_of_uint d).
Proof.
  induction d; simpl; congruence.
Qed.

Lemma count_text_no_comma (n : nat) :
  filter (fun c => negb (Ascii.eqb c ","))
         (list_ascii_of_string (astype_str (Int (Z.of_nat n))))
  = list_ascii_of_string (astype_str (Int (Z.of_nat n))).
Proof.
  unfold astype_str. destruct (Z.to_int (Z.of_nat n)) as [d|d] eqn:E.
  - simpl. destruct d; try apply digits_no_comma. reflexivity.
  - destruct n; simpl in E; discriminate.
Qed.

Lemma length_list_ascii (s : string) :
  List.length (list_ascii_of_string s) = String.length s.
Proof.
  induction s; simpl; auto.
Qed.

(** X20: the text of a count in a metric widget is the decimal text of the
    count with commas put in: taking the commas out gives the decimal
    text back, and a text of [d] digits gets [(d - 1) / 3] commas. *)
Theorem format_thousands_text (n : nat) :
  strip_commas (format_thousands n) = astype_str (Int (Z.of_nat n))
  /\ String.length (format_thousands n)
     = (String.length (astype_str (Int (Z.of_nat n)))
        + (String.length (astype_str (Int (Z.of_nat n))) - 1) / 3)%nat.
Proof.
  unfold strip_commas, format_thousands.
  set (text := astype_str (Int (Z.of_nat n))). split.
  - rewrite list_ascii_of_string_of_list_ascii, filter_rev.
    rewrite (group3_strip _ _ (Nat.le_refl _)), <- filter_rev, rev_involutive.
    unfold text. rewrite count_text_no_comma.
    apply string_of_list_ascii_of_string.
  - rewrite <- (length_list_ascii (string_of_list_ascii _)).
    rewrite list_ascii_of_string_of_list_ascii, length_rev.
    rewrite (group3_length _ _ (Nat.le_refl _)), length_rev.
    now rewrite length_list_ascii.
Qed.

(** ** Tables that hold every group *)

Lemma some_key_present (key : Col.row -> option string) (fd : frame) (r : Col.row) :
  In r (rows fd) ->
  existsb (fun k => has_key String.eqb k (key r))
          (sort String.leb (unique String.eqb (dropna (map key (rows fd)))))
  = match key r with Some _ => true | None => false end.
Proof.
  intros Hr. destruct (key r) as [k|] eqn:E.
  - apply existsb_exists. exists k. split.
    + rewrite sort_In, (unique_In String.eqb String.eqb_eq), dropna_In, in_map_iff.
      eauto.
    + simpl. apply String.eqb_refl.
  - simpl. induction (sort String.leb _); simpl; auto.
Qed.

Lemma keys_NoDup (key : Col.row -> option string) (fd : frame) :
  NoDup (sort String.leb (unique String.eqb (dropna (map key (rows fd))))).
Proof.
  eapply Permutation_NoDup; [symmetry; apply sort_perm|].
  apply unique_NoDup, String.eqb_eq.
Qed.

(** X21: when the view has at most 10 categories, the category table
    leaves nothing out: its units add up to the number of rows of the
    view that have a category. *)
Theorem small_tables_account_for_all_rows (fd : frame) :
  (nunique String.eqb (map Col.product_category_name_english (rows fd)) <= 10)%nat ->
  total (map snd (top_categories_units fd))
  = List.length
      (filter (fun r => match Col.product_category_name_english r with
                        | Some _ => true
                        | None => false
                        end)
              (rows fd)).
Proof.
  intros Hc.
  unfold top_categories_units, head. rewrite firstn_all2.
  2:{ rewrite (Permutation_length (sort_values_perm by_units false _)),
        length_map,
        (groupby_length String.eqb String.leb Col.product_category_name_english).
      exact Hc. }
  rewrite (total_perm _ _ (Permutation_map snd (sort_values_perm by_units false _))).
  unfold groupby. rewrite !map_map. simpl.
  erewrite map_ext; [|intros k; apply count_map].
  rewrite (count_over_keys
             (fun k r => has_key String.eqb k (Col.product_category_name_english r))
             (fun k k' r => has_key_same k k' _) _ _
             (keys_NoDup Col.product_category_name_english fd)).
  f_equal. apply filter_ext_in. intros r Hr.
  now apply (some_key_present Col.product_category_name_english).
Qed.

Lemma small_tables_account_for_all_rows_witness :
  total (map snd (top_categories_units sample_view))
  = List.length
      (filter (fun r => match Col.product_category_name_english r with
                        | Some _ => true
                        | None => false
                        end)
              (rows sample_view)).
Proof.
  apply (small_tables_account_for_all_rows sample_view).
  vm_compute. lia.
Defined.
